(** * Trading dashboard: store reducer, backend hook, chart builders, metric classes

    A shallow embedding of the client-side logic of the trading dashboard:

    - [TradingContext]      the reducer of [context/TradingContext.js];
    - [UseTradingData]      the backend hook [useTradingData];
    - [Plot], [MACDChart], [CandlestickChart]
                            the trace builders of the two chart components;
    - [PerformanceMetrics]  the metric classifier [getMetricType].

    JavaScript numbers are IEEE-754 binary64 values, taken from the
    specification of floating-point arithmetic in [SpecFloat]; objects are
    finite maps from property names to values. *)

From Stdlib Require Import ZArith Ascii.
From Stdlib Require Import Floats.SpecFloat.
From stdpp Require Import gmap strings list fin_maps pretty sorting.

Set Warnings "-register-all".

(* ===================================================================== *)
(** ** JavaScript values *)
(* ===================================================================== *)

Module Js.

(** The values that reach the modelled code: JSON data, [undefined], and the
    plain objects the code builds itself. *)
Inductive value :=
| VUndefined
| VNull
| VBool (b : bool)
| VNum (x : spec_float)
| VStr (s : string)
| VArr (items : list value)
| VObj (props : gmap string value).

(** *** Numbers: binary64 *)

Definition prec : Z := 53.
Definition emax : Z := 1024.

(** An integer literal. *)
Definition num_of_Z (z : Z) : spec_float := binary_normalize prec emax z 0 false.

Definition num_mul : spec_float → spec_float → spec_float := SFmul prec emax.
Definition num_div : spec_float → spec_float → spec_float := SFdiv prec emax.

(** A decimal literal [digits / 10^places], such as [0.02 = decimal 2 2]: the
    double nearest to the written number.  Both operands are exact doubles
    for the literals of the source, and division rounds correctly. *)
Definition decimal (digits : Z) (places : nat) : spec_float :=
  num_div (num_of_Z digits) (num_of_Z (10 ^ Z.of_nat places)).

(** [a < b] and [a > b] on numbers; both are false when either side is NaN. *)
Definition lt (a b : spec_float) : bool := SFltb a b.
Definition gt (a b : spec_float) : bool := SFltb b a.

(** Unary minus. *)
Definition neg (a : spec_float) : spec_float := SFopp a.

(** *** Truthiness, [||], property reads *)

Definition is_zero_or_nan (x : spec_float) : bool :=
  match x with
  | S754_zero _ | S754_nan => true
  | _ => false
  end.

Definition ToBoolean (v : value) : bool :=
  match v with
  | VUndefined | VNull => false
  | VBool b => b
  | VNum x => negb (is_zero_or_nan x)
  | VStr s => negb (String.eqb s "")
  | VArr _ | VObj _ => true
  end.

(** [a || b] *)
Definition or (a b : value) : value := if ToBoolean a then a else b.

Definition is_null (v : value) : bool :=
  match v with VNull => true | _ => false end.

Definition is_nullish (v : value) : bool :=
  match v with VUndefined | VNull => true | _ => false end.

(** [o.k] on the property map of an object: [undefined] when absent. *)
Definition prop (o : gmap string value) (k : string) : value :=
  default VUndefined (o !! k).

(** The own enumerable properties that an object spread [{...v}] copies:
    the properties of an object, the indexed elements of an array or of a
    string, and nothing for the other primitives.  A string is spread one
    [ascii] at a time, which is JavaScript's spread by UTF-16 code unit for
    ASCII text only; on other text the two differ, and nothing below
    depends on the spread of such a string. *)
Definition own_props (v : value) : gmap string value :=
  match v with
  | VObj props => props
  | VArr items => list_to_map (imap (λ i x, (pretty i, x)) items)
  | VStr s =>
      list_to_map
        (imap (λ i c, (pretty i, VStr (String c EmptyString)))
              (String.list_ascii_of_string s))
  | VUndefined | VNull | VBool _ | VNum _ => ∅
  end.

(** *** Conversion to string, errors, completions *)

Section Engine.

(** [Number::toString], the engine's shortest round-trip printing of a
    number, is taken as given. *)
Context (Number_toString : spec_float → string).

Definition join (sep : string) (parts : list string) : string :=
  match parts with
  | [] => ""
  | p :: rest => fold_left (λ acc q, acc +:+ sep +:+ q) rest p
  end.

(** [ToString(v)], as a template literal and [new Error(v)] apply it.  An
    array prints its elements separated by commas, [null] and [undefined]
    elements as nothing; a plain object prints as [[object Object]]. *)
Fixpoint ToString (v : value) : string :=
  match v with
  | VUndefined => "undefined"
  | VNull => "null"
  | VBool true => "true"
  | VBool false => "false"
  | VNum x => Number_toString x
  | VStr s => s
  | VArr items =>
      join "," (List.map (λ x, if is_nullish x then "" else ToString x) items)
  | VObj _ => "[object Object]"
  end.

(** [new Error(message)]: an object whose [message] reads as
    [ToString(message)], or as the empty string that [Error.prototype]
    supplies when [message] is [undefined]. *)
Definition new_Error (message : value) : value :=
  VObj {[ "message" :=
            VStr match message with
                 | VUndefined => ""
                 | _ => ToString message
                 end ]}.

(** *** [Number.prototype.toFixed] *)

Definition zeros (n : nat) : string := String.string_of_list_ascii (repeat "0"%char n).

(** The integer [n] for which [n / 10^f - m * 2^e] is as close to zero as
    possible, the larger one when two are equally close. *)
Definition nearest_scaled (m : positive) (e : Z) (f : nat) : Z :=
  let v := (Z.pos m * 10 ^ Z.of_nat f)%Z in
  if (0 <=? e)%Z then (v * 2 ^ e)%Z
  else ((2 * v + 2 ^ (- e)) / 2 ^ (- e + 1))%Z.

(** [m * 2^e >= 10^21] *)
Definition at_least_1e21 (m : positive) (e : Z) : bool :=
  if (0 <=? e)%Z then (10 ^ 21 <=? Z.pos m * 2 ^ e)%Z
  else (10 ^ 21 * 2 ^ (- e) <=? Z.pos m)%Z.

(** The digits of [n] with a point before the last [f] of them, padded with
    leading zeros up to [f + 1] digits. *)
Definition fixed_point (n : Z) (f : nat) : string :=
  let m := pretty (Z.to_N n) in
  match f with
  | O => m
  | S _ =>
      let k := String.length m in
      let m := if (k <=? f)%nat then zeros (f + 1 - k) +:+ m else m in
      let k := String.length m in
      String.substring 0 (k - f) m +:+ "." +:+ String.substring (k - f) f m
  end.

(** [x.toFixed(fractionDigits)], for [fractionDigits] between 0 and 100 as
    in every call of the source (2 and 6).  A number that is not finite, or
    whose magnitude is at least [10^21], prints as [Number::toString] does;
    a negative zero prints without sign. *)
Definition toFixed (x : spec_float) (fractionDigits : nat) : string :=
  match x with
  | S754_nan | S754_infinity _ => Number_toString x
  | S754_zero _ => fixed_point 0 fractionDigits
  | S754_finite s m e =>
      (if s then "-" else "") +:+
      (if at_least_1e21 m e then Number_toString (S754_finite false m e)
       else fixed_point (nearest_scaled m e fractionDigits) fractionDigits)
  end.

End Engine.

(** How an evaluation ends: with a value, or by throwing one. *)
Inductive completion (A : Type) :=
| Normal (a : A)
| Throw (e : value).
Arguments Normal {A} a.
Arguments Throw {A} e.

Section Reads.

(** The message of the [TypeError] that a property read on [null] or
    [undefined] raises is engine wording, taken as given: [base] is the
    value read from, [k] the property. *)
Context (TypeError_message : value → string → string).

(** [v.k].  Reading from [null] or [undefined] throws a [TypeError]; an
    object gives its property or [undefined].  The names the modelled code
    reads ([data], [success], [error], [message], [response], [results],
    [trades], [performance], [indicators], [symbols], [intervals] and the
    request fields) are defined neither on strings, numbers, booleans or
    arrays nor on [Object.prototype], so there the read gives [undefined]. *)
Definition get (v : value) (k : string) : completion value :=
  match v with
  | VUndefined | VNull => Throw (VObj {[ "message" := VStr (TypeError_message v k) ]})
  | VObj props => Normal (prop props k)
  | VBool _ | VNum _ | VStr _ | VArr _ => Normal VUndefined
  end.

(** [v.k1.k2...] *)
Fixpoint path (v : value) (ks : list string) : completion value :=
  match ks with
  | [] => Normal v
  | k :: rest =>
      match get v k with
      | Normal v' => path v' rest
      | Throw e => Throw e
      end
  end.

(** [v.k1?.k2?.k3]: the chain stops with [undefined] at a [null] or
    [undefined] link. *)
Definition optional_chain3 (v : value) (k1 k2 k3 : string) : completion value :=
  match get v k1 with
  | Throw e => Throw e
  | Normal a =>
      if is_nullish a then Normal VUndefined
      else match get a k2 with
           | Throw e => Throw e
           | Normal b =>
               if is_nullish b then Normal VUndefined else get b k3
           end
  end.

End Reads.

End Js.

(* ===================================================================== *)
(** ** The store reducer ([context/TradingContext.js]) *)
(* ===================================================================== *)

Module TradingContext.
Import Js.

Definition initialState : gmap string value :=
  list_to_map
    [ ("data", VNull);
      ("indicators", VNull);
      ("trades", VNull);
      ("performance", VNull);
      ("loading", VBool false);
      ("error", VNull);
      ("isConnected", VBool false);
      ("isLiveTrading", VBool false);
      ("symbol", VStr "ROSEUSDT");
      ("interval", VStr "5m");
      ("daysBack", VNum (num_of_Z 7));
      ("takeProfit", VNum (num_of_Z 2));
      ("stopLoss", VNum (num_of_Z 1));
      ("fastLength", VNum (num_of_Z 12));
      ("slowLength", VNum (num_of_Z 26));
      ("signalSmoothing", VNum (num_of_Z 9)) ].

(** [actionTypes] *)
Definition SET_LOADING : string := "SET_LOADING".
Definition SET_ERROR : string := "SET_ERROR".
Definition SET_DATA : string := "SET_DATA".
Definition SET_INDICATORS : string := "SET_INDICATORS".
Definition SET_TRADES : string := "SET_TRADES".
Definition SET_PERFORMANCE : string := "SET_PERFORMANCE".
Definition SET_CONNECTION_STATUS : string := "SET_CONNECTION_STATUS".
Definition SET_LIVE_TRADING : string := "SET_LIVE_TRADING".
Definition UPDATE_CONFIG : string := "UPDATE_CONFIG".
Definition UPDATE_STRATEGY_PARAMS : string := "UPDATE_STRATEGY_PARAMS".
Definition CLEAR_DATA : string := "CLEAR_DATA".

(** A dispatched action [{ type, payload }]; [payload] is [undefined] when
    the action carries none. *)
Record action := Action { type : string; payload : value }.

(** [tradingReducer(state, action)].  An object literal
    [{ ...state, k: v }] copies [state] and then sets [k];
    [{ ...state, ...payload }] copies [state] and then every own property
    of [payload], which wins where both define a name. *)
Definition tradingReducer (state : gmap string value) (action : action)
  : gmap string value :=
  let t := type action in
  if String.eqb t SET_LOADING then
    <["error" := VNull]> (<["loading" := payload action]> state)
  else if String.eqb t SET_ERROR then
    <["loading" := VBool false]> (<["error" := payload action]> state)
  else if String.eqb t SET_DATA then
    <["error" := VNull]>
      (<["loading" := VBool false]> (<["data" := payload action]> state))
  else if String.eqb t SET_INDICATORS then
    <["indicators" := payload action]> state
  else if String.eqb t SET_TRADES then
    <["trades" := payload action]> state
  else if String.eqb t SET_PERFORMANCE then
    <["performance" := payload action]> state
  else if String.eqb t SET_CONNECTION_STATUS then
    <["isConnected" := payload action]> state
  else if String.eqb t SET_LIVE_TRADING then
    <["isLiveTrading" := payload action]> state
  else if String.eqb t UPDATE_CONFIG then
    own_props (payload action) ∪ state
  else if String.eqb t UPDATE_STRATEGY_PARAMS then
    own_props (payload action) ∪ state
  else if String.eqb t CLEAR_DATA then
    <["error" := VNull]>
      (<["performance" := VNull]>
         (<["trades" := VNull]>
            (<["indicators" := VNull]> (<["data" := VNull]> state))))
  else state.

(** The action creators of [TradingProvider]. *)
Definition setLoading (loading : value) : action := Action SET_LOADING loading.
Definition setError (error : value) : action := Action SET_ERROR error.
Definition setData (data : value) : action := Action SET_DATA data.
Definition setIndicators (i : value) : action := Action SET_INDICATORS i.
Definition setTrades (trades : value) : action := Action SET_TRADES trades.
Definition setPerformance (p : value) : action := Action SET_PERFORMANCE p.
Definition setConnectionStatus (c : value) : action :=
  Action SET_CONNECTION_STATUS c.
Definition setLiveTrading (l : value) : action := Action SET_LIVE_TRADING l.
Definition updateConfig (config : value) : action := Action UPDATE_CONFIG config.
Definition updateStrategyParams (params : value) : action :=
  Action UPDATE_STRATEGY_PARAMS params.
Definition clearData : action := Action CLEAR_DATA VUndefined.

(** The states the store goes through: one per dispatched action, each
    taken right after its transition. *)
Fixpoint dispatched (state : gmap string value) (actions : list action)
  : list (gmap string value) :=
  match actions with
  | [] => []
  | a :: rest =>
      let state' := tradingReducer state a in
      state' :: dispatched state' rest
  end.

(** [loading] holds (is truthy) while [error] is anything but [null]. *)
Definition loading_with_error (state : gmap string value) : bool :=
  ToBoolean (prop state "loading") && negb (is_null (prop state "error")).

(** A merge action whose payload itself carries [loading] or [error]. *)
Definition patches_status (a : action) : bool :=
  (String.eqb (type a) UPDATE_CONFIG
   || String.eqb (type a) UPDATE_STRATEGY_PARAMS)
  && (bool_decide (is_Some (own_props (payload a) !! "loading"))
      || bool_decide (is_Some (own_props (payload a) !! "error"))).

(** A payload that sets both status fields at once. *)
Definition status_patch : value :=
  VObj (list_to_map [("loading", VBool true); ("error", VStr "boom")]).

(** A state in which a load is in progress and an error is shown. *)
Definition stuck_state : gmap string value :=
  <["error" := VStr "boom"]> (<["loading" := VBool true]> initialState).

(** The values of [actionTypes]: the types the [switch] has a case for. *)
Definition actionTypes : list string :=
  [ SET_LOADING; SET_ERROR; SET_DATA; SET_INDICATORS; SET_TRADES;
    SET_PERFORMANCE; SET_CONNECTION_STATUS; SET_LIVE_TRADING;
    UPDATE_CONFIG; UPDATE_STRATEGY_PARAMS; CLEAR_DATA ].

(** The fields of the state that hold results and status; the others hold
    the configuration. *)
Definition result_fields : list string :=
  [ "data"; "indicators"; "trades"; "performance"; "loading"; "error";
    "isConnected"; "isLiveTrading" ].

(** The two actions that merge their payload into the state. *)
Definition is_merge (a : action) : bool :=
  String.eqb (type a) UPDATE_CONFIG || String.eqb (type a) UPDATE_STRATEGY_PARAMS.

End TradingContext.

(* ===================================================================== *)
(** ** The backend hook ([useTradingData]) *)
(* ===================================================================== *)

Module UseTradingData.
Import Js.

(** The six [useState] cells of the hook. *)
Record store := Store {
  data : value;
  indicators : value;
  trades : value;
  performance : value;
  loading : value;
  error : value
}.

Definition initial_store : store :=
  Store VNull VNull VNull VNull (VBool false) VNull.

(** How the promise of an [axios] call settles. *)
Inductive settled :=
| Fulfilled (response : value)
| Rejected (err : value).

(** An asynchronous function of the hook: it runs against the store and
    ends normally or by throwing, which is how its promise settles.  A call
    is run on its own, from the store it finds to the store it leaves: what
    other calls write while this one awaits is not part of it. *)
Definition M (A : Type) : Type := store → store * completion A.

Definition ret {A} (a : A) : M A := λ s, (s, Normal a).

Definition throw {A} (e : value) : M A := λ s, (s, Throw e).

Definition bind {A B} (m : M A) (k : A → M B) : M B :=
  λ s, match m s with
       | (s', Normal a) => k a s'
       | (s', Throw e) => (s', Throw e)
       end.

Declare Scope hook_scope.
Delimit Scope hook_scope with hook.
Bind Scope hook_scope with M.
Notation "x <- m ;; k" := (bind m (λ x, k))
  (at level 100, m at next level, right associativity) : hook_scope.
Notation "m ;; k" := (bind m (λ _, k))
  (at level 100, right associativity) : hook_scope.

(** A completion computed without touching the store. *)
Definition lift {A} (c : completion A) : M A := λ s, (s, c).

(** [await p] *)
Definition await (p : settled) : M value :=
  match p with
  | Fulfilled response => ret response
  | Rejected err => throw err
  end.

(** [try { body } catch (err) { handler }] *)
Definition try_catch {A} (body : M A) (handler : value → M A) : M A :=
  λ s, match body s with
       | (s', Normal a) => (s', Normal a)
       | (s', Throw e) => handler e s'
       end.

(** [try { body } finally { cleanup }]: the cleanup always runs, and the
    body's completion stands unless the cleanup itself throws. *)
Definition try_finally {A} (body : M A) (cleanup : M unit) : M A :=
  λ s, let '(s', r) := body s in
       match cleanup s' with
       | (s'', Normal _) => (s'', r)
       | (s'', Throw e) => (s'', Throw e)
       end.

Definition setData (v : value) : M unit :=
  λ s, (Store v (indicators s) (trades s) (performance s) (loading s) (error s), Normal tt).
Definition setIndicators (v : value) : M unit :=
  λ s, (Store (data s) v (trades s) (performance s) (loading s) (error s), Normal tt).
Definition setTrades (v : value) : M unit :=
  λ s, (Store (data s) (indicators s) v (performance s) (loading s) (error s), Normal tt).
Definition setPerformance (v : value) : M unit :=
  λ s, (Store (data s) (indicators s) (trades s) v (loading s) (error s), Normal tt).
Definition setLoading (v : value) : M unit :=
  λ s, (Store (data s) (indicators s) (trades s) (performance s) v (error s), Normal tt).
Definition setError (v : value) : M unit :=
  λ s, (Store (data s) (indicators s) (trades s) (performance s) (loading s) v, Normal tt).

(** A parameter default [x = d]: used when the argument is [undefined]. *)
Definition default_arg (x d : value) : value :=
  match x with VUndefined => d | _ => x end.

Section Hook.

Context (Number_toString : spec_float → string).
Context (TypeError_message : value → string → string).

(** [process.env.REACT_APP_API_URL], when set. *)
Context (REACT_APP_API_URL : option string).

(** The network: [axios.get(url, config)] and
    [axios.post(url, body, config)] as the way their promises settle. *)
Context (axios_get : string → value → settled).
Context (axios_post : string → value → value → settled).

Local Open Scope hook_scope.

Local Abbreviation ToString := (Js.ToString Number_toString).
Local Abbreviation new_Error := (Js.new_Error Number_toString).
Local Abbreviation path := (Js.path TypeError_message).
Local Abbreviation get := (Js.get TypeError_message).
Local Abbreviation optional_chain3 := (Js.optional_chain3 TypeError_message).

Definition API_BASE_URL : string :=
  match REACT_APP_API_URL with
  | Some url => if String.eqb url "" then "http://localhost:5000" else url
  | None => "http://localhost:5000"
  end.

(** [err.response?.data?.error || err.message || fallback] *)
Definition failure_message (err : value) (fallback : string) : M value :=
  a <- lift (optional_chain3 err "response" "data" "error") ;;
  if ToBoolean a then ret a
  else
    b <- lift (get err "message") ;;
    ret (or b (VStr fallback)).

Definition json_headers : value :=
  VObj {[ "headers" := VObj {[ "Content-Type" := VStr "application/json" ]} ]}.

(** The [try] block of [fetchData]. *)
Definition fetchData_try (symbol interval daysBack timezone : value) : M value :=
  response <- await
    (axios_get
       (API_BASE_URL +:+ "/api/data/" +:+ ToString symbol +:+ "/" +:+ ToString interval)
       (VObj {[ "params" :=
                  VObj (<["days" := daysBack]> {[ "timezone" := timezone ]}) ]})) ;;
  success <- lift (path response ["data"; "success"]) ;;
  if ToBoolean success then
    d <- lift (path response ["data"; "data"]) ;;
    setData d ;;
    i <- lift (path response ["data"; "indicators"]) ;;
    setIndicators i ;;
    ret VUndefined
  else
    e <- lift (path response ["data"; "error"]) ;;
    throw (new_Error (or e (VStr "Failed to fetch data"))).

(** Its [catch] block; [console.error] only writes to the console and is
    left out here and below. *)
Definition fetchData_catch (err : value) : M value :=
  msg <- failure_message err "Failed to fetch data" ;;
  setError msg ;;
  ret VUndefined.

Definition fetchData (symbol interval daysBack timezone : value) : M value :=
  let daysBack := default_arg daysBack (VNum (num_of_Z 7)) in
  let timezone := default_arg timezone (VStr "Asia/Singapore") in
  setLoading (VBool true) ;;
  setError VNull ;;
  try_finally
    (try_catch (fetchData_try symbol interval daysBack timezone) fetchData_catch)
    (setLoading (VBool false)).

(** The defaults of the request body of [runBacktest], by field. *)
Definition backtest_defaults : list (string * value) :=
  [ ("days_back", VNum (num_of_Z 7));
    ("timezone", VStr "Asia/Singapore");
    ("take_profit", VNum (decimal 2 2));
    ("stop_loss", VNum (decimal 1 2));
    ("fast_length", VNum (num_of_Z 12));
    ("slow_length", VNum (num_of_Z 26));
    ("signal_smoothing", VNum (num_of_Z 9)) ].

(** The fields of the body, read from [config] in the order they are
    written: each is [config.k || default]. *)
Fixpoint backtest_fields (config : value) (defaults : list (string * value))
  : completion (list (string * value)) :=
  match defaults with
  | [] => Normal []
  | (k, d) :: rest =>
      match get config k with
      | Throw e => Throw e
      | Normal v =>
          match backtest_fields config rest with
          | Throw e => Throw e
          | Normal fields => Normal ((k, or v d) :: fields)
          end
      end
  end.

(** The request body of [runBacktest]. *)
Definition backtest_body (config : value) : completion value :=
  match backtest_fields config backtest_defaults with
  | Throw e => Throw e
  | Normal fields => Normal (VObj (list_to_map fields))
  end.

(** The [try] block of [runBacktest]. *)
Definition runBacktest_try (symbol interval config : value) : M value :=
  body <- lift (backtest_body config) ;;
  response <- await
    (axios_post
       (API_BASE_URL +:+ "/api/backtest/" +:+ ToString symbol +:+ "/" +:+ ToString interval)
       body json_headers) ;;
  success <- lift (path response ["data"; "success"]) ;;
  if ToBoolean success then
    results <- lift (path response ["data"; "results"]) ;;
    t <- lift (get results "trades") ;;
    setTrades (or t (VArr [])) ;;
    p <- lift (get results "performance") ;;
    setPerformance (or p VNull) ;;
    ret results
  else
    e <- lift (path response ["data"; "error"]) ;;
    throw (new_Error (or e (VStr "Backtest failed"))).

Definition runBacktest_catch (err : value) : M value :=
  msg <- failure_message err "Backtest failed" ;;
  setError msg ;;
  throw err.

Definition runBacktest (symbol interval config : value) : M value :=
  setLoading (VBool true) ;;
  setError VNull ;;
  try_finally
    (try_catch (runBacktest_try symbol interval config) runBacktest_catch)
    (setLoading (VBool false)).

(** The [try] block of [getSymbols]. *)
Definition getSymbols_try : M value :=
  response <- await (axios_get (API_BASE_URL +:+ "/api/symbols") VUndefined) ;;
  symbols <- lift (path response ["data"; "symbols"]) ;;
  ret (or symbols (VArr [])).

Definition getSymbols : M value :=
  try_catch getSymbols_try (λ err, ret (VArr [])).

(** The [try] block of [getIntervals]. *)
Definition getIntervals_try : M value :=
  response <- await (axios_get (API_BASE_URL +:+ "/api/intervals") VUndefined) ;;
  intervals <- lift (path response ["data"; "intervals"]) ;;
  ret (or intervals (VArr [])).

Definition getIntervals : M value :=
  try_catch getIntervals_try (λ err, ret (VArr [])).

(** The [try] block of [startRealTimeStream]. *)
Definition startRealTimeStream_try (symbol interval timezone : value) : M value :=
  response <- await
    (axios_post
       (API_BASE_URL +:+ "/api/stream/start")
       (VObj (<["symbol" := symbol]>
                (<["interval" := interval]> {[ "timezone" := timezone ]})))
       json_headers) ;;
  success <- lift (path response ["data"; "success"]) ;;
  if negb (ToBoolean success) then
    e <- lift (path response ["data"; "error"]) ;;
    throw (new_Error (or e (VStr "Failed to start stream")))
  else
    lift (get response "data").

Definition startRealTimeStream_catch (err : value) : M value :=
  msg <- failure_message err "Failed to start stream" ;;
  setError msg ;;
  throw err.

Definition startRealTimeStream (symbol interval timezone : value) : M value :=
  let timezone := default_arg timezone (VStr "Asia/Singapore") in
  try_catch (startRealTimeStream_try symbol interval timezone)
            startRealTimeStream_catch.

(** The [try] block of [stopRealTimeStream]; the request has no body. *)
Definition stopRealTimeStream_try : M value :=
  response <- await
    (axios_post (API_BASE_URL +:+ "/api/stream/stop") VUndefined VUndefined) ;;
  success <- lift (path response ["data"; "success"]) ;;
  if negb (ToBoolean success) then
    e <- lift (path response ["data"; "error"]) ;;
    throw (new_Error (or e (VStr "Failed to stop stream")))
  else
    lift (get response "data").

Definition stopRealTimeStream_catch (err : value) : M value :=
  msg <- failure_message err "Failed to stop stream" ;;
  setError msg ;;
  throw err.

Definition stopRealTimeStream : M value :=
  try_catch stopRealTimeStream_try stopRealTimeStream_catch.

(** [checkHealth]: its [catch] block logs and throws again. *)
Definition checkHealth : M value :=
  try_catch
    (response <- await (axios_get (API_BASE_URL +:+ "/api/health") VUndefined) ;;
     lift (get response "data"))
    (λ err, throw err).

End Hook.

(** The store once a call has begun: [setLoading(true); setError(null)]. *)
Definition started (s : store) : store :=
  Store (data s) (indicators s) (trades s) (performance s) (VBool true) VNull.

(** The block [m] run from [s] throws [e]. *)
Definition fails {A} (m : M A) (s : store) (e : value) : Prop :=
  ∃ s', m s = (s', Throw e).

(** The four result cells agree in two stores. *)
Definition same_results (s s' : store) : Prop :=
  data s' = data s ∧ indicators s' = indicators s
  ∧ trades s' = trades s ∧ performance s' = performance s.

End UseTradingData.

(* ===================================================================== *)
(** ** Chart inputs and traces *)
(* ===================================================================== *)

Module Plot.

(** One bar of [data.ohlcv]. *)
Record bar := Bar {
  Open : spec_float;
  High : spec_float;
  Low : spec_float;
  Close : spec_float;
  Volume : spec_float
}.

Section Shapes.

(** Timestamps as the backend sends them; the charts hand them to the
    plotting library as they are and read them only through [Date]. *)
Context {timestamp : Type}.

(** [data]: [{ timestamps, ohlcv }] *)
Record market_data := MarketData {
  data_timestamps : list timestamp;
  ohlcv : list bar
}.

(** [indicators.ema_200]: [{ timestamps, values }] *)
Record ema_series := Ema {
  ema_timestamps : list timestamp;
  ema_values : list spec_float
}.

(** [indicators.macd]: [{ timestamps, values, signal, histogram }] *)
Record macd_series := Macd {
  macd_timestamps : list timestamp;
  macd_values : list spec_float;
  macd_signal : list spec_float;
  macd_histogram : list spec_float
}.

(** [indicators]; a series that the object does not carry is [None]. *)
Record indicators := Indicators {
  ema_200 : option ema_series;
  macd : option macd_series
}.

Record trade := Trade {
  entry_date : timestamp;
  exit_date : timestamp;
  entry_price : spec_float;
  exit_price : spec_float;
  return_pct : spec_float;
  exit_reason : string
}.

(** [marker.color]: one colour, or one per point. *)
Inductive marker_color :=
| OneColor (c : string)
| PerPoint (cs : list string).

(** The traces handed to the plot, by [type] and [mode], with the fields
    that carry data.  A [y] entry of a marker trace is [None] where the
    source reads past the end of an array ([undefined]). *)
Inductive trace :=
| Candlestick (name : string) (x : list timestamp)
    (open high low close : list spec_float)
| ScatterLines (name : string) (x : list timestamp) (y : list spec_float)
    (color : string)
| Bars (name : string) (x : list timestamp) (y : list spec_float)
    (colors : list string)
| ScatterMarkers (name : string) (x : list timestamp)
    (y : list (option spec_float)) (symbol : string) (size : Z)
    (color : marker_color) (text : option (list string)).

End Shapes.

Arguments market_data : clear implicits.
Arguments ema_series : clear implicits.
Arguments macd_series : clear implicits.
Arguments indicators : clear implicits.
Arguments trade : clear implicits.
Arguments trace : clear implicits.

Definition green : string := "#00ff88".
Definition red : string := "#ff4976".

(** [array.length > 0] *)
Definition nonempty {A} (l : list A) : bool :=
  match l with [] => false | _ :: _ => true end.

End Plot.

(* ===================================================================== *)
(** ** The oscillator chart ([MACDChart]) *)
(* ===================================================================== *)

Module MACDChart.
Import Js Plot.

(** [array.findIndex(p)]: the first index whose element satisfies [p],
    or [-1]. *)
Fixpoint findIndex_from {A} (p : A → bool) (l : list A) (i : Z) : Z :=
  match l with
  | [] => (-1)%Z
  | a :: rest => if p a then i else findIndex_from p rest (i + 1)%Z
  end.

Definition findIndex {A} (p : A → bool) (l : list A) : Z := findIndex_from p l 0%Z.

(** [a >= b] on time values; a time value is an integral number of
    milliseconds or NaN ([None]), and NaN compares false. *)
Definition time_ge (a b : option Z) : bool :=
  match a, b with
  | Some x, Some y => (y <=? x)%Z
  | _, _ => false
  end.

(** [array.filter(Boolean)] on an array of objects and [null]s. *)
Definition filter_Boolean {A} (l : list (option A)) : list A := omap id l.

Section Chart.

Context {timestamp : Type}.

(** [new Date(t).getTime()]: [None] is NaN, the time of an invalid date. *)
Context (Date_getTime : timestamp → option Z).

(** A crossover point [{ x, y }]. *)
Record point := Point { x : timestamp; y : option spec_float }.

Definition entryIndex (m : macd_series timestamp) (trade : trade timestamp) : Z :=
  findIndex
    (λ t, time_ge (Date_getTime t) (Date_getTime (entry_date trade)))
    (macd_timestamps m).

(** The callback of [trades.map]: a point, or [null]. *)
Definition crossoverPoint (m : macd_series timestamp) (trade : trade timestamp)
  : option point :=
  let i := entryIndex m trade in
  if (0 <=? i)%Z then
    Some (Point (entry_date trade) (macd_values m !! Z.to_nat i))
  else None.

Definition crossoverPoints (m : macd_series timestamp) (trades : list (trade timestamp))
  : list point :=
  filter_Boolean (crossoverPoint m <$> trades).

Definition histogramColors (m : macd_series timestamp) : list string :=
  (λ val, if SFleb (num_of_Z 0) val then green else red) <$> macd_histogram m.

Definition chartData (indicators : option (indicators timestamp))
    (trades : option (list (trade timestamp))) : list (trace timestamp) :=
  match indicators with
  | None => []
  | Some ind =>
      match macd ind with
      | None => []
      | Some m =>
          [ ScatterLines "MACD" (macd_timestamps m) (macd_values m) "#2196F3";
            ScatterLines "Signal" (macd_timestamps m) (macd_signal m) "#FF5722";
            Bars "Histogram" (macd_timestamps m) (macd_histogram m) (histogramColors m) ]
          ++
          match trades with
          | None => []
          | Some trades =>
              if nonempty trades then
                let points := crossoverPoints m trades in
                if nonempty points then
                  [ ScatterMarkers "MACD Crossover"
                      (x <$> points) (y <$> points)
                      "circle" 8 (OneColor green) None ]
                else []
              else []
          end
      end
  end.

(** [array[i]] for an index computed as a number: [undefined] out of
    range, in particular at [-1]. *)
Definition at_index {A} (l : list A) (i : Z) : option A :=
  if (i <? 0)%Z then None else l !! Z.to_nat i.

(** The ends [x0], [x1] of the dashed zero line of [layout.shapes]:
    [indicators?.macd?.timestamps[0]] and
    [indicators?.macd?.timestamps[indicators.macd.timestamps.length - 1]],
    each [undefined] ([None]) when a link of the chain is missing. *)
Definition zeroLine (indicators : option (indicators timestamp))
  : option timestamp * option timestamp :=
  match indicators with
  | None => (None, None)
  | Some ind =>
      match macd ind with
      | None => (None, None)
      | Some m =>
          (at_index (macd_timestamps m) 0,
           at_index (macd_timestamps m)
                    (Z.of_nat (length (macd_timestamps m)) - 1))
      end
  end.

End Chart.

End MACDChart.

(* ===================================================================== *)
(** ** The price chart ([CandlestickChart]) *)
(* ===================================================================== *)

Module CandlestickChart.
Import Js Plot.

Section Chart.

Context (Number_toString : spec_float → string).
Context {timestamp : Type}.

Local Abbreviation toFixed := (Js.toFixed Number_toString).

Record entryPoint := EntryPoint {
  entry_x : timestamp;
  entry_y : spec_float;
  entry_text : string
}.

Record exitPoint := ExitPoint {
  exit_x : timestamp;
  exit_y : spec_float;
  point_return_pct : spec_float;
  point_exit_reason : string
}.

Definition entryPoints (trades : list (trade timestamp)) : list entryPoint :=
  (λ trade,
     EntryPoint (entry_date trade) (entry_price trade)
                ("Entry: $" +:+ toFixed (entry_price trade) 6))
  <$> trades.

Definition exitPoints (trades : list (trade timestamp)) : list exitPoint :=
  (λ trade,
     ExitPoint (exit_date trade) (exit_price trade)
               (return_pct trade) (exit_reason trade))
  <$> trades.

(** The colour of an exit marker: [p.return_pct > 0 ? green : red]. *)
Definition exitColor (p : exitPoint) : string :=
  if gt (point_return_pct p) (num_of_Z 0) then green else red.

(** The hover text of an exit marker. *)
Definition exitText (p : exitPoint) : string :=
  point_exit_reason p +:+ "<br>Return: "
    +:+ toFixed (num_mul (point_return_pct p) (num_of_Z 100)) 2 +:+ "%".

Definition chartData (data : option (market_data timestamp))
    (indicators : option (indicators timestamp))
    (trades : option (list (trade timestamp))) : list (trace timestamp) :=
  match data, indicators with
  | Some data, Some indicators =>
      [ Candlestick "Price" (data_timestamps data)
          (Open <$> ohlcv data) (High <$> ohlcv data)
          (Low <$> ohlcv data) (Close <$> ohlcv data) ]
      ++
      match ema_200 indicators with
      | Some ema =>
          if nonempty (ema_values ema) then
            [ ScatterLines "200 EMA" (ema_timestamps ema) (ema_values ema) "#FFD700" ]
          else []
      | None => []
      end
      ++
      match trades with
      | Some trades =>
          if nonempty trades then
            let entries := entryPoints trades in
            (if nonempty entries then
               [ ScatterMarkers "Buy Signals"
                   (entry_x <$> entries)
                   ((λ p, Some (entry_y p)) <$> entries)
                   "triangle-up" 12 (OneColor green) None ]
             else [])
            ++
            let exits := exitPoints trades in
            (if nonempty exits then
               [ ScatterMarkers "Exit Signals"
                   (exit_x <$> exits)
                   ((λ p, Some (exit_y p)) <$> exits)
                   "triangle-down" 10
                   (PerPoint (exitColor <$> exits))
                   (Some (exitText <$> exits)) ]
             else [])
          else []
      | None => []
      end
  | _, _ => []
  end.

(** *** The traces as functions of the trades

    What the chart is shown to build, stated over the trades themselves
    rather than over the intermediate points. *)

(** The colour and the hover text of the exit marker of a trade. *)
Definition exit_color_of (t : trade timestamp) : string :=
  if gt (return_pct t) (num_of_Z 0) then green else red.

Definition exit_text_of (t : trade timestamp) : string :=
  exit_reason t +:+ "<br>Return: "
    +:+ toFixed (num_mul (return_pct t) (num_of_Z 100)) 2 +:+ "%".

(** The two marker traces, read off the trades. *)
Definition buy_signals (ts : list (trade timestamp)) : trace timestamp :=
  ScatterMarkers "Buy Signals"
    (entry_date <$> ts) ((λ t, Some (entry_price t)) <$> ts)
    "triangle-up" 12 (OneColor green) None.

Definition exit_signals (ts : list (trade timestamp)) : trace timestamp :=
  ScatterMarkers "Exit Signals"
    (exit_date <$> ts) ((λ t, Some (exit_price t)) <$> ts)
    "triangle-down" 10
    (PerPoint (exit_color_of <$> ts)) (Some (exit_text_of <$> ts)).

Definition candles (d : market_data timestamp) : trace timestamp :=
  Candlestick "Price" (data_timestamps d)
    (Open <$> ohlcv d) (High <$> ohlcv d) (Low <$> ohlcv d) (Close <$> ohlcv d).

End Chart.

End CandlestickChart.

(* ===================================================================== *)
(** ** The metric classifier ([PerformanceMetrics]) *)
(* ===================================================================== *)

Module PerformanceMetrics.
Import Js.

Record performance := Performance {
  total_return : spec_float;
  win_rate : spec_float;
  average_return : spec_float;
  max_drawdown : spec_float;
  sharpe_ratio : spec_float
}.

(** [getMetricType(value, threshold = 0)]; [None] is a call that leaves the
    threshold out. *)
Definition getMetricType (value : spec_float) (threshold : option spec_float)
  : string :=
  let threshold := default (num_of_Z 0) threshold in
  if gt value threshold then "positive"
  else if lt value threshold then "negative"
  else "neutral".

(** The [type] of each card that is classified. *)
Definition totalReturnType (p : performance) : string :=
  getMetricType (total_return p) None.
Definition winRateType (p : performance) : string :=
  getMetricType (win_rate p) (Some (num_of_Z 50)).
Definition averageReturnType (p : performance) : string :=
  getMetricType (average_return p) None.
Definition maxDrawdownType (p : performance) : string :=
  getMetricType (neg (max_drawdown p)) (Some (neg (num_of_Z 10))).
Definition sharpeRatioType (p : performance) : string :=
  getMetricType (sharpe_ratio p) (Some (num_of_Z 1)).

End PerformanceMetrics.

(* ===================================================================== *)
(** ** The list of trades ([TradesList]) *)
(* ===================================================================== *)

Module TradesList.
Import Js Plot.

(** [array.slice(-n)]: the last [n] elements, or all of them when there are
    fewer. *)
Definition slice_last {A} (n : nat) (l : list A) : list A :=
  drop (length l - n) l.

(** [trades.slice(-20).reverse()] *)
Definition recentTrades {A} (trades : list A) : list A :=
  reverse (slice_last 20 trades).

Section List.

Context (Number_toString : spec_float → string).

(** [parseFloat] on the text of a number, taken as given. *)
Context (parseFloat : string → spec_float).

Context {timestamp : Type}.

(** [formatDate]: the date and time in the locale of the browser, taken as
    given. *)
Context (formatDate : timestamp → string).

Local Abbreviation toFixed := (Js.toFixed Number_toString).

Definition formatPrice (price : spec_float) : string :=
  toFixed (parseFloat (Number_toString price)) 6.

Definition formatPercent (value : spec_float) : string :=
  let percent := num_mul value (num_of_Z 100) in
  (if gt percent (num_of_Z 0) then "+" else "") +:+ toFixed percent 2 +:+ "%".

(** What one [TradeItem] shows. *)
Record item := Item {
  isProfit : bool;
  returnText : string;
  reasonText : string;
  entryDateText : string;
  exitDateText : string;
  entryPriceText : string;
  exitPriceText : string;
  changeText : string
}.

Definition tradeItem (trade : trade timestamp) : item :=
  let isProfit := gt (return_pct trade) (num_of_Z 0) in
  let priceChange := SFsub prec emax (exit_price trade) (entry_price trade) in
  Item isProfit
       (formatPercent (return_pct trade))
       (exit_reason trade)
       (formatDate (entry_date trade))
       (formatDate (exit_date trade))
       (formatPrice (entry_price trade))
       (formatPrice (exit_price trade))
       ((if gt priceChange (num_of_Z 0) then "+" else "") +:+ toFixed priceChange 6).

(** What the component renders: the empty state, or the items. *)
Inductive view :=
| EmptyState
| Items (items : list item).

Definition TradesList (trades : option (list (trade timestamp))) : view :=
  match trades with
  | None => EmptyState
  | Some trades =>
      if Nat.eqb (length trades) 0 then EmptyState
      else Items (tradeItem <$> recentTrades trades)
  end.

End List.

End TradesList.

(* ===================================================================== *)
(** ** The dashboard ([TradingDashboard]) *)
(* ===================================================================== *)

Module TradingDashboard.
Import Js UseTradingData.

(** React's rule for a child written in braces, as in [<p>{error}</p>]: a
    string or a number is drawn as text, a boolean, [null] or [undefined]
    draws nothing, an array gives its elements as children, and any other
    object is refused ("Objects are not valid as a React child"), an error
    that takes the whole tree down. *)
Fixpoint valid_child (v : value) : bool :=
  match v with
  | VObj _ => false
  | VArr items => forallb valid_child items
  | VUndefined | VNull | VBool _ | VNum _ | VStr _ => true
  end.

(** A panel of the dashboard: its component mounted with the given props,
    or the spinner that stands in while its input is missing. *)
Inductive panel :=
| Spinner
| Mounted (props : gmap string value).

(** The element that the component function returns: the loading
    container; the error container, whose paragraph has [error] as its
    child; or the three panels, which mount [CandlestickChart], [MACDChart]
    and [PerformanceMetrics].  A mounted component is rendered by its own
    function from the props recorded here; that rendering, and whether it
    raises on its props, is not part of this element. *)
Inductive element :=
| LoadingScreen
| ErrorScreen (child : value)
| Panels (price macd metrics : panel).

(** [symbol] and [interval] are the component's own state cells; they only
    ever hold the strings they start with. *)
Definition TradingDashboard (symbol interval : string) (s : store) : element :=
  if ToBoolean (loading s) then LoadingScreen
  else if ToBoolean (error s) then ErrorScreen (error s)
  else
    Panels
      (if ToBoolean (data s) && ToBoolean (indicators s) then
         Mounted (list_to_map
           [ ("data", data s);
             ("indicators", indicators s);
             ("trades", trades s);
             ("symbol", VStr symbol);
             ("interval", VStr interval) ])
       else Spinner)
      (if ToBoolean (indicators s) then
         Mounted (list_to_map
           [ ("indicators", indicators s); ("trades", trades s) ])
       else Spinner)
      (if ToBoolean (performance s) then
         Mounted (list_to_map
           [ ("performance", performance s); ("trades", trades s) ])
       else Spinner).

(** The configuration that [handleRunBacktest] passes on. *)
Definition backtest_config (daysBack : value) : value :=
  VObj (list_to_map
    [ ("days_back", daysBack);
      ("take_profit", VNum (decimal 2 2));
      ("stop_loss", VNum (decimal 1 2));
      ("fast_length", VNum (num_of_Z 12));
      ("slow_length", VNum (num_of_Z 26));
      ("signal_smoothing", VNum (num_of_Z 9)) ]).

Section Dashboard.

Context (Number_toString : spec_float → string).
Context (TypeError_message : value → string → string).
Context (REACT_APP_API_URL : option string).
Context (axios_get : string → value → settled).
Context (axios_post : string → value → value → settled).

Local Open Scope hook_scope.

(** The effect that loads the data, and the retry button: the time zone is
    left out. *)
Definition loadData (symbol interval daysBack : value) : M value :=
  fetchData Number_toString TypeError_message REACT_APP_API_URL axios_get
            symbol interval daysBack VUndefined.

Definition handleRunBacktest (symbol interval daysBack : value) : M value :=
  try_catch
    (runBacktest Number_toString TypeError_message REACT_APP_API_URL axios_post
                 symbol interval (backtest_config daysBack) ;;
     ret VUndefined)
    (λ err, ret VUndefined).

End Dashboard.

End TradingDashboard.

(* ===================================================================== *)
(** ** A sample environment *)
(* ===================================================================== *)

(** An engine and a network to run the hook and the charts on concrete
    inputs.  Every property below holds for every engine and network; these
    only instantiate them. *)
Module Sample.
Import Js UseTradingData.

(** A number printer that is right on NaN, the infinities, zero and the
    whole numbers below [10^21], and shows the raw mantissa and exponent of
    any other number. *)
Definition print_number (x : spec_float) : string :=
  match x with
  | S754_nan => "NaN"
  | S754_infinity false => "Infinity"
  | S754_infinity true => "-Infinity"
  | S754_zero _ => "0"
  | S754_finite s m e =>
      (if s then "-" else "") +:+
      (if at_least_1e21 m e then pretty (N.pos m) +:+ "*2^" +:+ pretty e
       else if (0 <=? e)%Z then pretty (Z.to_N (Z.pos m * 2 ^ e))
       else if (Z.pos m mod 2 ^ (- e) =? 0)%Z then pretty (Z.to_N (Z.pos m / 2 ^ (- e)))
       else pretty (N.pos m) +:+ "*2^" +:+ pretty e)
  end.

(** The wording of V8 for a read from [null] or [undefined]. *)
Definition type_error_message (base : value) (k : string) : string :=
  "Cannot read properties of "
    +:+ (if is_null base then "null" else "undefined")
    +:+ " (reading '" +:+ k +:+ "')".

(** A backend that answers every backtest with a reported failure. *)
Definition insufficient_data_response : value :=
  VObj (<["status" := VNum (num_of_Z 200)]>
          {[ "data" :=
               VObj (<["success" := VBool false]>
                       {[ "error" := VStr "insufficient data" ]}) ]}).

Definition refusing_post (url : string) (body config : value) : settled :=
  Fulfilled insufficient_data_response.

(** A network that is down: every request is rejected. *)
Definition network_error : value :=
  VObj (<["message" := VStr "Network Error"]> {[ "code" := VStr "ERR_NETWORK" ]}).

Definition down_get (url : string) (config : value) : settled :=
  Rejected network_error.

Definition down_post (url : string) (body config : value) : settled :=
  Rejected network_error.

(** A store that already holds the results of an earlier backtest. *)
Definition earlier_results : store :=
  Store VNull VNull
        (VArr [VObj {[ "return_pct" := VNum (decimal 2 2) ]}])
        (VObj {[ "total_trades" := VNum (num_of_Z 1) ]})
        (VBool false) VNull.

(** A configuration whose profit target and loss limit are zero. *)
Definition zero_risk_config : gmap string value :=
  <["take_profit" := VNum (num_of_Z 0)]>
    (<["stop_loss" := VNum (num_of_Z 0)]>
       {[ "days_back" := VNum (num_of_Z 30) ]}).

(** A run through every kind of transition, merges of configuration
    included. *)
Definition sample_session : list TradingContext.action :=
  [ TradingContext.setLoading (VBool true);
    TradingContext.setData (VObj {[ "timestamps" := VArr [] ]});
    TradingContext.setIndicators (VObj ∅);
    TradingContext.updateConfig (VObj {[ "symbol" := VStr "BTCUSDT" ]});
    TradingContext.setLoading (VBool true);
    TradingContext.setError (VStr "Backtest failed");
    TradingContext.updateStrategyParams (VObj {[ "takeProfit" := VNum (num_of_Z 3) ]});
    TradingContext.setTrades (VArr []);
    TradingContext.setPerformance VNull;
    TradingContext.setConnectionStatus (VBool true);
    TradingContext.setLiveTrading (VBool true);
    TradingContext.Action "UNKNOWN" VUndefined;
    TradingContext.clearData ].

(** A backend that answers every data request with three bars and an EMA
    of two points. *)
Definition three_bar_body : gmap string value :=
  <["success" := VBool true]>
    (<["data" :=
         VObj (<["timestamps" := VArr [VStr "t0"; VStr "t1"; VStr "t2"]]>
                 {[ "ohlcv" := VArr [VObj ∅; VObj ∅; VObj ∅] ]})]>
       {[ "indicators" :=
            VObj {[ "ema_200" :=
                      VObj (<["timestamps" := VArr [VStr "t1"; VStr "t2"]]>
                              {[ "values" := VArr [VNum (num_of_Z 1);
                                                   VNum (num_of_Z 2)] ]}) ]} ]}).

Definition answering_get (url : string) (config : value) : settled :=
  Fulfilled (VObj {[ "data" := VObj three_bar_body ]}).

(** A backend that answers every backtest with one trade and no summary. *)
Definition one_trade_results : gmap string value :=
  {[ "trades" := VArr [VObj {[ "return_pct" := VNum (decimal 2 2) ]}] ]}.

Definition answering_post (url : string) (body config : value) : settled :=
  Fulfilled
    (VObj {[ "data" :=
               VObj (<["success" := VBool true]>
                       {[ "results" := VObj one_trade_results ]}) ]}).

(** A store left by a failed load. *)
Definition failed_load : store :=
  Store VNull VNull VNull VNull (VBool false) (VStr "Failed to fetch data").

(** Chart inputs whose timestamps are times in milliseconds, so that
    [Date] reads each as itself ([Some]). *)
Definition three_bars : Plot.macd_series Z :=
  Plot.Macd [10; 20; 30]%Z
       [num_of_Z 1; num_of_Z 2; num_of_Z 3]
       [num_of_Z 1; num_of_Z 1; num_of_Z 1]
       [num_of_Z 0; num_of_Z 1; num_of_Z 2].

Definition trade_at (entry : Z) : Plot.trade Z :=
  Plot.Trade entry (entry + 100)%Z (num_of_Z 1) (num_of_Z 2) (decimal 1 2)
             "take_profit".

(** Indicators that carry the three-bar oscillator and no moving average. *)
Definition with_macd : Plot.indicators Z :=
  Plot.Indicators None (Some three_bars).

Definition two_bars : Plot.market_data Z :=
  Plot.MarketData [10; 20]%Z
    [ Plot.Bar (num_of_Z 1) (num_of_Z 3) (num_of_Z 1) (num_of_Z 2) (num_of_Z 50);
      Plot.Bar (num_of_Z 2) (num_of_Z 4) (num_of_Z 2) (num_of_Z 3) (num_of_Z 70) ].

Definition with_ema : Plot.indicators Z :=
  Plot.Indicators (Some (Plot.Ema [10; 20]%Z [num_of_Z 2; num_of_Z 2])) None.

(** A trade stopped out at a loss of 1.3 percent. *)
Definition stopped_out : Plot.trade Z :=
  Plot.Trade 10%Z 20%Z (num_of_Z 1000) (num_of_Z 987)
             (neg (decimal 13 3)) "stop_loss".

(** A summary whose maximum drawdown is reported with a minus sign, as
    -50. *)
Definition negative_drawdown : PerformanceMetrics.performance :=
  PerformanceMetrics.Performance (num_of_Z 0) (num_of_Z 0) (num_of_Z 0)
                                 (neg (num_of_Z 50)) (num_of_Z 0).

End Sample.

(* ===================================================================== *)
(** * Properties *)
(* ===================================================================== *)

(** ** Property reads *)

Module JsFacts.
Import Js.

Lemma prop_insert_eq o k v : prop (<[k:=v]> o) k = v.
Proof. unfold prop. by rewrite lookup_insert_eq. Qed.

Lemma prop_insert_ne o k k' v : k ≠ k' → prop (<[k:=v]> o) k' = prop o k'.
Proof. intros Hne. unfold prop. by rewrite lookup_insert_ne. Qed.

Lemma prop_union_absent (p o : gmap string value) k :
  p !! k = None → prop (p ∪ o) k = prop o k.
Proof. intros Hnone. unfold prop. by rewrite lookup_union_r. Qed.

Lemma prop_lookup (o : gmap string value) k v : o !! k = Some v → prop o k = v.
Proof. intros Hsome. unfold prop. by rewrite Hsome. Qed.

Lemma prop_singleton_eq k (v : value) : prop {[ k := v ]} k = v.
Proof. unfold prop. by rewrite lookup_singleton_eq. Qed.

Lemma prop_singleton_ne k k' (v : value) :
  k ≠ k' → prop {[ k := v ]} k' = VUndefined.
Proof. intros Hne. unfold prop. by rewrite lookup_singleton_ne. Qed.

Lemma bool_decide_is_Some_false {A} (o : option A) :
  bool_decide (is_Some o) = false → o = None.
Proof.
  intros Hd. apply bool_decide_eq_false in Hd.
  destruct o; [exfalso; apply Hd; eauto | done].
Qed.

End JsFacts.

(** ** The store reducer *)

Module TradingContextSpec.
Import Js JsFacts TradingContext.

(** Read a status field after a chain of property writes. *)
Ltac read_props :=
  repeat first
    [ rewrite prop_insert_eq
    | rewrite prop_insert_ne by discriminate ].

(** Split on which [case] of the [switch] an action type selects. *)
Ltac by_case t :=
  unfold tradingReducer; cbn [type payload];
  repeat
    match goal with
    | |- context [String.eqb t ?c] =>
        let E := fresh "Etype" in destruct (String.eqb t c) eqn:E
    end.

(** Every action that is not a merge leaves [loading] and [error] alone or
    sets them so that they exclude each other. *)
Lemma reducer_keeps_rest state a :
  loading_with_error state = false →
  patches_status a = false →
  loading_with_error (tradingReducer state a) = false.
Proof.
  intros Hrest Hbenign. destruct a as [t p].
  unfold loading_with_error, patches_status in *. cbn [type payload] in *.
  by_case t;
    repeat match goal with
           | E : String.eqb _ _ = _ |- _ => try rewrite E in Hbenign; clear E
           end;
    read_props; try done; try (cbn; by rewrite andb_false_r).
  - (* UPDATE_CONFIG *)
    cbn [orb andb] in Hbenign. apply orb_false_elim in Hbenign as [Hl He].
    apply bool_decide_is_Some_false in Hl, He.
    by rewrite !prop_union_absent.
  - (* UPDATE_STRATEGY_PARAMS *)
    cbn [orb andb] in Hbenign. apply orb_false_elim in Hbenign as [Hl He].
    apply bool_decide_is_Some_false in Hl, He.
    by rewrite !prop_union_absent.
Qed.

(** The three status transitions set the invariant up from any state. *)
Lemma status_actions_establish_rest state p :
  loading_with_error (tradingReducer state (setLoading p)) = false
  ∧ loading_with_error (tradingReducer state (setError p)) = false
  ∧ loading_with_error (tradingReducer state (setData p)) = false.
Proof.
  unfold loading_with_error. repeat split; cbn; read_props; cbn;
    by rewrite ?andb_false_r.
Qed.

(** C1 (as stated, refuted): from the documented initial state a single
    [UPDATE_CONFIG] whose payload carries [loading: true] and an [error]
    leaves the store loading with an error; and from a state that already
    has both, a transition that touches neither keeps both. *)
Lemma status_patch_breaks_rest :
  Exists (λ s, loading_with_error s = true)
         (dispatched initialState [updateConfig status_patch])
  ∧ Exists (λ s, loading_with_error s = true)
           (dispatched stuck_state [setTrades (VArr [])]).
Proof. split; apply Exists_cons_hd; vm_compute; reflexivity. Qed.

(** C1 (amended): from a state in which [loading] and a non-null [error] do
    not hold together, and along any sequence of transitions in which no
    [UPDATE_CONFIG] or [UPDATE_STRATEGY_PARAMS] payload carries a [loading]
    or [error] property, [loading] and a non-null [error] never hold
    together right after a transition. *)
Theorem rest_invariant_without_status_patches state actions :
  loading_with_error state = false →
  Forall (λ a, patches_status a = false) actions →
  Forall (λ s, loading_with_error s = false) (dispatched state actions).
Proof.
  intros Hrest Hbenign. revert state Hrest.
  induction Hbenign as [|a actions Ha _ IH]; intros state Hrest; cbn.
  - constructor.
  - pose proof (reducer_keeps_rest state a Hrest Ha) as Hstep.
    constructor; [exact Hstep | by apply IH].
Qed.

(** Along a run through every kind of transition, merges of configuration
    included, the store is never loading with an error. *)
Lemma rest_invariant_sample_session :
  Forall (λ s, loading_with_error s = false)
         (dispatched initialState Sample.sample_session).
Proof.
  apply (rest_invariant_without_status_patches initialState Sample.sample_session).
  - vm_compute; reflexivity.
  - repeat constructor.
Defined.

(** C3: [CLEAR_DATA] sets [data], [indicators], [trades], [performance] and
    [error] to [null] whatever the prior state, and leaves [loading],
    [isConnected] and [isLiveTrading] as they were. *)
Theorem clear_data_effect (state : gmap string value) (p : value) :
  let state' := tradingReducer state (Action CLEAR_DATA p) in
  state' !! "data" = Some VNull
  ∧ state' !! "indicators" = Some VNull
  ∧ state' !! "trades" = Some VNull
  ∧ state' !! "performance" = Some VNull
  ∧ state' !! "error" = Some VNull
  ∧ state' !! "loading" = state !! "loading"
  ∧ state' !! "isConnected" = state !! "isConnected"
  ∧ state' !! "isLiveTrading" = state !! "isLiveTrading".
Proof.
  cbn. repeat split;
    repeat first [ rewrite lookup_insert_eq | rewrite lookup_insert_ne by discriminate ];
    reflexivity.
Qed.

(** Beyond the five cleared fields, [CLEAR_DATA] changes nothing at all. *)
Lemma clear_data_frame (state : gmap string value) (p : value) (k : string) :
  k ∉ ["data"; "indicators"; "trades"; "performance"; "error"] →
  tradingReducer state (Action CLEAR_DATA p) !! k = state !! k.
Proof.
  intros Hk. cbn.
  rewrite !lookup_insert_ne; [done | | | | |];
    intros <-; apply Hk; set_solver.
Qed.

(** C10: [SET_LOADING] sets [error] to [null] for every payload, [false]
    included, so that ending a load this way erases an error that was set. *)
Theorem set_loading_clears_error (state : gmap string value) (b : value) :
  prop (tradingReducer state (setLoading b)) "error" = VNull
  ∧ prop (tradingReducer state (setLoading b)) "loading" = b
  ∧ prop (tradingReducer (tradingReducer state (setError (VStr "failed")))
                         (setLoading (VBool false))) "error" = VNull.
Proof. cbn. by read_props. Qed.

End TradingContextSpec.

(** ** The backend hook *)

Module UseTradingDataSpec.
Import Js JsFacts UseTradingData.

Section Hook.

Context (Number_toString : spec_float → string).
Context (TypeError_message : value → string → string).
Context (REACT_APP_API_URL : option string).
Context (axios_get : string → value → settled).
Context (axios_post : string → value → value → settled).

Local Abbreviation failure_message := (failure_message TypeError_message).
Local Abbreviation backtest_fields := (backtest_fields TypeError_message).
Local Abbreviation backtest_body := (backtest_body TypeError_message).
Local Abbreviation backtest_url symbol interval :=
  (API_BASE_URL REACT_APP_API_URL +:+ "/api/backtest/"
     +:+ ToString Number_toString symbol +:+ "/"
     +:+ ToString Number_toString interval).
Local Abbreviation fetchData_try :=
  (fetchData_try Number_toString TypeError_message REACT_APP_API_URL axios_get).
Local Abbreviation fetchData :=
  (fetchData Number_toString TypeError_message REACT_APP_API_URL axios_get).
Local Abbreviation runBacktest_try :=
  (runBacktest_try Number_toString TypeError_message REACT_APP_API_URL axios_post).
Local Abbreviation runBacktest :=
  (runBacktest Number_toString TypeError_message REACT_APP_API_URL axios_post).
Local Abbreviation getSymbols_try :=
  (getSymbols_try TypeError_message REACT_APP_API_URL axios_get).
Local Abbreviation getSymbols :=
  (getSymbols TypeError_message REACT_APP_API_URL axios_get).
Local Abbreviation getIntervals_try :=
  (getIntervals_try TypeError_message REACT_APP_API_URL axios_get).
Local Abbreviation getIntervals :=
  (getIntervals TypeError_message REACT_APP_API_URL axios_get).

(** A non-empty string is truthy. *)
Lemma nonempty_string_truthy (s : string) : s ≠ "" → ToBoolean (VStr s) = true.
Proof.
  intros Hne. cbn. destruct (String.eqb_spec s ""); [contradiction | reflexivity].
Qed.

Lemma or_truthy_r (a b : value) : ToBoolean b = true → ToBoolean (or a b) = true.
Proof. intros Hb. unfold or. by destruct (ToBoolean a) eqn:Ha. Qed.

(** Close a goal that exhibits the message and shows it truthy. *)
Ltac message_found :=
  eexists; split;
  [ reflexivity
  | first [ assumption | apply or_truthy_r; assumption ] ].

(** The message taken from a caught value that is an object or a primitive:
    reading it touches nothing, does not throw, and gives a truthy value. *)
Lemma failure_message_truthy (err : value) (fallback : string) (s : store) :
  is_nullish err = false → fallback ≠ "" →
  ∃ msg, failure_message err fallback s = (s, Normal msg) ∧ ToBoolean msg = true.
Proof.
  intros Herr Hfb.
  pose proof (nonempty_string_truthy fallback Hfb) as Htruthy.
  unfold UseTradingData.failure_message, optional_chain3.
  destruct err as [| | b | x | str | items | props]; try discriminate;
    cbn; try by message_found.
  destruct (prop props "response") as [| | b | x | str | items | rprops] eqn:Hr;
    cbn; try by message_found.
  destruct (prop rprops "data") as [| | b | x | str | items | dprops] eqn:Hd;
    cbn; try by message_found.
  destruct (ToBoolean (prop dprops "error")) eqn:He; cbn; by message_found.
Qed.

(** The message taken from an [Error] made with a non-empty string. *)
Lemma failure_message_new_Error (msg fallback : string) (s : store) :
  msg ≠ "" →
  failure_message (new_Error Number_toString (VStr msg)) fallback s
  = (s, Normal (VStr msg)).
Proof.
  intros Hne. pose proof (nonempty_string_truthy msg Hne) as Ht.
  unfold UseTradingData.failure_message, optional_chain3, new_Error, lift, bind.
  cbn [get].
  rewrite prop_singleton_ne by discriminate. cbn.
  rewrite prop_singleton_eq. unfold or. by rewrite Ht.
Qed.

(** On an object every field of the body can be read. *)
Lemma backtest_fields_object (c : gmap string value) (defaults : list (string * value)) :
  backtest_fields (VObj c) defaults
  = Normal ((λ kd, (kd.1, or (prop c kd.1) kd.2)) <$> defaults).
Proof.
  induction defaults as [|[k d] rest IH]; cbn; [reflexivity|].
  cbn in IH. by rewrite IH.
Qed.

Lemma backtest_body_object (c : gmap string value) :
  backtest_body (VObj c)
  = Normal (VObj (list_to_map
      ((λ kd, (kd.1, or (prop c kd.1) kd.2)) <$> backtest_defaults))).
Proof.
  unfold UseTradingData.backtest_body. by rewrite backtest_fields_object.
Qed.

(** A reported failure: the response arrives, says [success: false] (or
    anything falsy) and carries a non-empty [error]. *)
Lemma runBacktest_reports_domain_failure
    (symbol interval config body : value) (r d : gmap string value)
    (msg : string) (s : store) :
  backtest_body config = Normal body →
  axios_post (backtest_url symbol interval) body json_headers = Fulfilled (VObj r) →
  r !! "data" = Some (VObj d) →
  ToBoolean (prop d "success") = false →
  prop d "error" = VStr msg →
  msg ≠ "" →
  runBacktest symbol interval config s
  = (Store (data s) (indicators s) (trades s) (performance s) (VBool false) (VStr msg),
     Throw (new_Error Number_toString (VStr msg))).
Proof.
  intros Hbody Hpost Hdata Hsuccess Herror Hne.
  pose proof (nonempty_string_truthy msg Hne) as Ht.
  assert (Htry : ∀ s0, runBacktest_try symbol interval config s0
                       = (s0, Throw (new_Error Number_toString (VStr msg)))).
  { intros s0. unfold UseTradingData.runBacktest_try, bind, lift.
    rewrite Hbody, Hpost. cbn [await ret path get].
    rewrite (prop_lookup r "data" (VObj d) Hdata). cbn [get].
    rewrite Hsuccess, Herror.
    unfold or, throw. by rewrite Ht. }
  unfold UseTradingData.runBacktest, try_finally, try_catch, bind.
  cbn [setLoading setError]. rewrite Htry.
  unfold runBacktest_catch, bind.
  rewrite failure_message_new_Error by done.
  reflexivity.
Qed.

(** *** The two failure policies *)

(** The metadata queries never write to the store. *)
Lemma getSymbols_try_store (s : store) : (getSymbols_try s).1 = s.
Proof.
  unfold UseTradingData.getSymbols_try, bind, lift, await.
  destruct (axios_get _ _) as [response | err]; [|reflexivity].
  cbn [ret]. by destruct (path TypeError_message response ["data"; "symbols"]).
Qed.

Lemma getIntervals_try_store (s : store) : (getIntervals_try s).1 = s.
Proof.
  unfold UseTradingData.getIntervals_try, bind, lift, await.
  destruct (axios_get _ _) as [response | err]; [|reflexivity].
  cbn [ret]. by destruct (path TypeError_message response ["data"; "intervals"]).
Qed.

(** Whatever makes its [try] block throw, a metadata query resolves with
    the empty list and leaves the store alone. *)
Lemma getSymbols_failure (s : store) (e : value) :
  fails getSymbols_try s e → getSymbols s = (s, Normal (VArr [])).
Proof.
  intros [s' Hthrow]. pose proof (getSymbols_try_store s) as Hstore.
  unfold UseTradingData.getSymbols, try_catch. rewrite Hthrow in Hstore |- *.
  cbn in Hstore. by subst s'.
Qed.

Lemma getIntervals_failure (s : store) (e : value) :
  fails getIntervals_try s e → getIntervals s = (s, Normal (VArr [])).
Proof.
  intros [s' Hthrow]. pose proof (getIntervals_try_store s) as Hstore.
  unfold UseTradingData.getIntervals, try_catch. rewrite Hthrow in Hstore |- *.
  cbn in Hstore. by subst s'.
Qed.

(** A metadata query never throws and never writes, failure or not. *)
Lemma getSymbols_total (s : store) : ∃ v, getSymbols s = (s, Normal v).
Proof.
  pose proof (getSymbols_try_store s) as Hstore.
  unfold UseTradingData.getSymbols, try_catch.
  destruct (getSymbols_try s) as [s' [v | e]]; cbn in Hstore; subst s'; eauto.
Qed.

Lemma getIntervals_total (s : store) : ∃ v, getIntervals s = (s, Normal v).
Proof.
  pose proof (getIntervals_try_store s) as Hstore.
  unfold UseTradingData.getIntervals, try_catch.
  destruct (getIntervals_try s) as [s' [v | e]]; cbn in Hstore; subst s'; eauto.
Qed.

(** A rejected request is one way for each [try] block to throw. *)
Lemma getSymbols_try_rejected (s : store) (e : value) :
  axios_get (API_BASE_URL REACT_APP_API_URL +:+ "/api/symbols") VUndefined = Rejected e →
  fails getSymbols_try s e.
Proof.
  intros Hget. exists s. unfold UseTradingData.getSymbols_try, bind. by rewrite Hget.
Qed.

Lemma getIntervals_try_rejected (s : store) (e : value) :
  axios_get (API_BASE_URL REACT_APP_API_URL +:+ "/api/intervals") VUndefined = Rejected e →
  fails getIntervals_try s e.
Proof.
  intros Hget. exists s. unfold UseTradingData.getIntervals_try, bind. by rewrite Hget.
Qed.

Lemma fetchData_try_rejected (symbol interval daysBack timezone : value)
    (s : store) (e : value) :
  (∀ url config, axios_get url config = Rejected e) →
  fails (fetchData_try symbol interval daysBack timezone) s e.
Proof.
  intros Hget. exists s. unfold UseTradingData.fetchData_try, bind. by rewrite Hget.
Qed.

Lemma runBacktest_try_rejected (symbol interval : value) (c : gmap string value)
    (s : store) (e : value) :
  (∀ url body config, axios_post url body config = Rejected e) →
  fails (runBacktest_try symbol interval (VObj c)) s e.
Proof.
  intros Hpost. exists s. unfold UseTradingData.runBacktest_try, bind, lift.
  rewrite backtest_body_object. by rewrite Hpost.
Qed.

(** Whatever makes the [try] block of [fetchData] throw, the store ends
    with a truthy [error] and [loading = false], and the call resolves. *)
Lemma fetchData_failure (symbol interval daysBack timezone : value)
    (s : store) (e : value) :
  is_nullish e = false →
  fails (fetchData_try symbol interval
           (default_arg daysBack (VNum (num_of_Z 7)))
           (default_arg timezone (VStr "Asia/Singapore")))
        (started s) e →
  let r := fetchData symbol interval daysBack timezone s in
  r.2 = Normal VUndefined
  ∧ loading r.1 = VBool false
  ∧ ToBoolean (error r.1) = true.
Proof.
  intros He [s' Hthrow].
  destruct (failure_message_truthy e "Failed to fetch data" s' He)
    as (msg & Hmsg & Htruthy); [discriminate|].
  unfold UseTradingData.fetchData, try_finally, try_catch, bind.
  cbn [setLoading setError data indicators trades performance loading error].
  fold (started s). rewrite Hthrow.
  unfold fetchData_catch, bind. rewrite Hmsg. cbn. by repeat split.
Qed.

(** The same for [runBacktest], which also rejects with what was thrown. *)
Lemma runBacktest_failure (symbol interval config : value) (s : store) (e : value) :
  is_nullish e = false →
  fails (runBacktest_try symbol interval config) (started s) e →
  let r := runBacktest symbol interval config s in
  r.2 = Throw e
  ∧ loading r.1 = VBool false
  ∧ ToBoolean (error r.1) = true.
Proof.
  intros He [s' Hthrow].
  destruct (failure_message_truthy e "Backtest failed" s' He)
    as (msg & Hmsg & Htruthy); [discriminate|].
  unfold UseTradingData.runBacktest, try_finally, try_catch, bind.
  cbn [setLoading setError data indicators trades performance loading error].
  fold (started s). rewrite Hthrow.
  unfold runBacktest_catch, bind. rewrite Hmsg. cbn. by repeat split.
Qed.

Lemma truthy_not_null (v : value) : ToBoolean v = true → is_null v = false.
Proof. by destruct v. Qed.


(** *** The request body of [runBacktest] *)

(** C9: in the request body each field is replaced by its default whenever
    the configured value is falsy, not only when it is absent: a
    [take_profit] of 0 is sent as 0.02 and a [stop_loss] of 0 as 0.01, and
    no field of the body is ever falsy, so 0 cannot be sent. *)
Theorem backtest_body_replaces_falsy (c : gmap string value) :
  ∃ b, backtest_body (VObj c) = Normal (VObj b)
    ∧ (∀ k d, (k, d) ∈ backtest_defaults →
         b !! k = Some (if ToBoolean (prop c k) then prop c k else d))
    ∧ (prop c "take_profit" = VNum (num_of_Z 0) →
         b !! "take_profit" = Some (VNum (decimal 2 2)))
    ∧ (prop c "stop_loss" = VNum (num_of_Z 0) →
         b !! "stop_loss" = Some (VNum (decimal 1 2)))
    ∧ (∀ k d, (k, d) ∈ backtest_defaults → ToBoolean (prop b k) = true).
Proof.
  eexists. split; [apply backtest_body_object|].
  assert (Hall : ∀ k d, (k, d) ∈ backtest_defaults →
            (list_to_map
               ((λ kd, (kd.1, or (prop c kd.1) kd.2)) <$> backtest_defaults)
             : gmap string value) !! k
            = Some (if ToBoolean (prop c k) then prop c k else d)).
  { intros k d Hin. unfold backtest_defaults in Hin.
    repeat (apply elem_of_cons in Hin as [Hin | Hin];
            [injection Hin as -> ->; reflexivity|]).
    by apply elem_of_nil in Hin. }
  split; [exact Hall|].
  split; [|split].
  - intros Hzero. rewrite (Hall "take_profit" (VNum (decimal 2 2))).
    + by rewrite Hzero.
    + unfold backtest_defaults. set_solver.
  - intros Hzero. rewrite (Hall "stop_loss" (VNum (decimal 1 2))).
    + by rewrite Hzero.
    + unfold backtest_defaults. set_solver.
  - intros k d Hin. rewrite (prop_lookup _ _ _ (Hall k d Hin)).
    destruct (ToBoolean (prop c k)) eqn:Htruthy; [exact Htruthy|].
    unfold backtest_defaults in Hin.
    repeat (apply elem_of_cons in Hin as [Hin | Hin];
            [injection Hin as -> ->; reflexivity|]).
    by apply elem_of_nil in Hin.
Qed.

(** The same failure delivered with an error status: the request is
    rejected with an error that carries the response. *)
Lemma runBacktest_reports_http_failure
    (symbol interval config body : value) (e r d : gmap string value)
    (msg : string) (s : store) :
  backtest_body config = Normal body →
  axios_post (backtest_url symbol interval) body json_headers = Rejected (VObj e) →
  e !! "response" = Some (VObj r) →
  r !! "data" = Some (VObj d) →
  prop d "error" = VStr msg →
  msg ≠ "" →
  runBacktest symbol interval config s
  = (Store (data s) (indicators s) (trades s) (performance s) (VBool false) (VStr msg),
     Throw (VObj e)).
Proof.
  intros Hbody Hpost Hresponse Hdata Herror Hne.
  pose proof (nonempty_string_truthy msg Hne) as Ht.
  assert (Htry : ∀ s0, runBacktest_try symbol interval config s0
                       = (s0, Throw (VObj e))).
  { intros s0. unfold UseTradingData.runBacktest_try, bind, lift.
    by rewrite Hbody, Hpost. }
  unfold UseTradingData.runBacktest, try_finally, try_catch, bind.
  cbn [setLoading setError]. rewrite Htry.
  unfold runBacktest_catch, bind, UseTradingData.failure_message, bind, lift,
    optional_chain3.
  cbn [get]. rewrite (prop_lookup e "response" (VObj r) Hresponse).
  cbn [is_nullish get]. rewrite (prop_lookup r "data" (VObj d) Hdata).
  cbn [is_nullish get]. rewrite Herror, Ht. reflexivity.
Qed.

End Hook.

(** C4: when the backtest call receives a well-formed response with
    [success: false] and [error: "insufficient data"], the store ends with
    that error and [loading = false], and [trades] and [performance] (and
    the other data fields) are what they were before the call. *)
Theorem runBacktest_insufficient_data
    (Number_toString : spec_float → string)
    (TypeError_message : value → string → string)
    (REACT_APP_API_URL : option string)
    (axios_post : string → value → value → settled)
    (symbol interval config body : value) (r d : gmap string value) (s : store) :
  backtest_body TypeError_message config = Normal body →
  axios_post
    (API_BASE_URL REACT_APP_API_URL +:+ "/api/backtest/"
       +:+ ToString Number_toString symbol +:+ "/"
       +:+ ToString Number_toString interval)
    body json_headers = Fulfilled (VObj r) →
  r !! "data" = Some (VObj d) →
  d !! "success" = Some (VBool false) →
  d !! "error" = Some (VStr "insufficient data") →
  let s' :=
    (runBacktest Number_toString TypeError_message REACT_APP_API_URL axios_post
       symbol interval config s).1 in
  error s' = VStr "insufficient data"
  ∧ loading s' = VBool false
  ∧ trades s' = trades s
  ∧ performance s' = performance s
  ∧ data s' = data s
  ∧ indicators s' = indicators s.
Proof.
  intros Hbody Hpost Hdata Hsuccess Herror.
  rewrite (runBacktest_reports_domain_failure Number_toString TypeError_message
             REACT_APP_API_URL axios_post symbol interval config body r d
             "insufficient data" s Hbody Hpost Hdata).
  - cbn. repeat split.
  - by rewrite (prop_lookup d "success" (VBool false) Hsuccess).
  - by apply prop_lookup.
  - discriminate.
Qed.

Lemma runBacktest_insufficient_data_sample :
  let s' :=
    (runBacktest Sample.print_number Sample.type_error_message None
       Sample.refusing_post (VStr "BTCUSDT") (VStr "5m") (VObj ∅)
       Sample.earlier_results).1 in
  error s' = VStr "insufficient data"
  ∧ loading s' = VBool false
  ∧ trades s' = trades Sample.earlier_results
  ∧ performance s' = performance Sample.earlier_results
  ∧ data s' = data Sample.earlier_results
  ∧ indicators s' = indicators Sample.earlier_results.
Proof.
  eapply (runBacktest_insufficient_data Sample.print_number
            Sample.type_error_message None Sample.refusing_post
            (VStr "BTCUSDT") (VStr "5m") (VObj ∅)).
  - apply backtest_body_object.
  - reflexivity.
  - reflexivity.
  - reflexivity.
  - reflexivity.
Defined.


(** A configuration that asks for no profit target and no loss limit is
    sent with 0.02 and 0.01; its 30 days go through. *)
Lemma zero_risk_config_is_replaced :
  ∃ b, backtest_body Sample.type_error_message (VObj Sample.zero_risk_config)
       = Normal (VObj b)
    ∧ b !! "take_profit" = Some (VNum (decimal 2 2))
    ∧ b !! "stop_loss" = Some (VNum (decimal 1 2))
    ∧ b !! "days_back" = Some (VNum (num_of_Z 30)).
Proof.
  destruct (backtest_body_replaces_falsy Sample.type_error_message
              Sample.zero_risk_config) as (b & Hb & Hall & Htp & Hsl & _).
  exists b. split; [exact Hb|]. split; [|split].
  - apply Htp. reflexivity.
  - apply Hsl. reflexivity.
  - rewrite (Hall "days_back" (VNum (num_of_Z 7))); [reflexivity|].
    unfold backtest_defaults. set_solver.
Defined.

End UseTradingDataSpec.

(** ** The oscillator chart *)

Module MACDChartSpec.
Import Js Plot MACDChart.

Section FindIndex.

Context {A : Type} (p : A → bool).

Lemma findIndex_from_none (l : list A) (i0 : Z) :
  Forall (λ a, p a = false) l → findIndex_from p l i0 = (-1)%Z.
Proof.
  intros Hall. revert i0.
  induction Hall as [|a l Ha _ IH]; intros i0; cbn; [reflexivity|].
  rewrite Ha. apply IH.
Qed.

Lemma findIndex_from_found (l : list A) (i0 : Z) (n : nat) (a : A) :
  l !! n = Some a → p a = true →
  (∀ j b, j < n → l !! j = Some b → p b = false) →
  findIndex_from p l i0 = (i0 + Z.of_nat n)%Z.
Proof.
  revert i0 n. induction l as [|c l IH]; intros i0 n Hn Ha Hbefore; [done|].
  destruct n as [|n]; cbn in *.
  - injection Hn as ->. rewrite Ha. lia.
  - rewrite (Hbefore 0 c) by (done || lia).
    rewrite (IH (i0 + 1)%Z n Hn Ha); [lia|].
    intros j b Hj Hb. apply (Hbefore (S j) b); [lia | exact Hb].
Qed.

(** What [findIndex] returns: [-1] when no element passes, and otherwise
    the position of the first one that does. *)
Lemma findIndex_from_cases (l : list A) (i0 : Z) :
  (findIndex_from p l i0 = (-1)%Z ∧ Forall (λ a, p a = false) l)
  ∨ (∃ n a, findIndex_from p l i0 = (i0 + Z.of_nat n)%Z
            ∧ l !! n = Some a ∧ p a = true
            ∧ ∀ j b, j < n → l !! j = Some b → p b = false).
Proof.
  revert i0. induction l as [|c l IH]; intros i0; cbn.
  - left. split; [reflexivity | constructor].
  - destruct (p c) eqn:Hc.
    + right. exists 0, c. repeat split; [lia | done |]. intros j b Hj. lia.
    + destruct (IH (i0 + 1)%Z) as [[Hnone Hall] | (n & a & Hidx & Hn & Ha & Hbefore)].
      * left. split; [exact Hnone | by constructor].
      * right. exists (S n), a. repeat split; [lia | exact Hn | exact Ha |].
        intros [|j] b Hj Hb; cbn in Hb; [by injection Hb as -> |].
        apply (Hbefore j b); [lia | exact Hb].
Qed.

End FindIndex.

Section Chart.

Context {timestamp : Type}.
Context (Date_getTime : timestamp → option Z).

Local Abbreviation entryIndex := (entryIndex Date_getTime).
Local Abbreviation crossoverPoint := (crossoverPoint Date_getTime).
Local Abbreviation crossoverPoints := (crossoverPoints Date_getTime).
Local Abbreviation chartData := (MACDChart.chartData Date_getTime).

(** On valid dates the scan compares the times themselves. *)
Lemma findIndex_from_times (l : list timestamp) (ts : list Z) (target : timestamp)
    (te : Z) (i0 : Z) :
  Date_getTime <$> l = Some <$> ts →
  Date_getTime target = Some te →
  findIndex_from (λ t, time_ge (Date_getTime t) (Date_getTime target)) l i0
  = findIndex_from (λ t, (te <=? t)%Z) ts i0.
Proof.
  intros Hl Hte. rewrite Hte. revert ts i0 Hl.
  induction l as [|a l IH]; intros [|t ts] i0 Hl; try done.
  cbn in Hl. injection Hl as Ha Hl. cbn. rewrite Ha. cbn.
  by rewrite (IH ts (i0 + 1)%Z Hl).
Qed.

(** In a strictly increasing sequence nothing exceeds the last element. *)
Lemma sorted_below_last (ts : list Z) (t tn : Z) :
  StronglySorted Z.lt ts → t ∈ ts → last ts = Some tn → (t <= tn)%Z.
Proof.
  intros Hsorted Ht Hlast. apply last_Some in Hlast as [ts' ->].
  apply elem_of_app in Ht as [Ht | Ht].
  - assert (t < tn)%Z; [|lia].
    apply (StronglySorted_app_1_elem_of _ ts' [tn] t tn Hsorted Ht). set_solver.
  - apply list_elem_of_singleton in Ht. lia.
Qed.

(** The marker of a trade is dropped from the list of points when it has
    no point. *)
Lemma crossoverPoints_dropped (m : macd_series timestamp)
    (before after : list (trade timestamp)) (trade : trade timestamp) :
  crossoverPoint m trade = None →
  crossoverPoints m (before ++ trade :: after) = crossoverPoints m (before ++ after).
Proof.
  intros Hnone. unfold MACDChart.crossoverPoints, filter_Boolean.
  rewrite !fmap_app, !omap_app, fmap_cons. cbn. by rewrite Hnone.
Qed.

(** The marker of a trade that has a point sits in the list of points
    between the points of the trades before it and of those after it. *)
Lemma crossoverPoints_placed (m : macd_series timestamp)
    (before after : list (trade timestamp)) (trade : trade timestamp) (p : point) :
  crossoverPoint m trade = Some p →
  crossoverPoints m (before ++ trade :: after)
  = crossoverPoints m before ++ p :: crossoverPoints m after.
Proof.
  intros Hsome. unfold MACDChart.crossoverPoints, filter_Boolean.
  rewrite !fmap_app, !omap_app, fmap_cons. cbn. by rewrite Hsome.
Qed.

(** The points become the last trace of the chart, in the order of the
    trades that have one. *)
Lemma chartData_crossover_trace (ind : indicators timestamp) (m : macd_series timestamp)
    (trades : list (trade timestamp)) :
  macd ind = Some m →
  crossoverPoints m trades ≠ [] →
  last (chartData (Some ind) (Some trades))
  = Some (ScatterMarkers "MACD Crossover"
            (x <$> crossoverPoints m trades) (y <$> crossoverPoints m trades)
            "circle" 8 (OneColor green) None).
Proof.
  intros Hm Hpoints. unfold MACDChart.chartData. rewrite Hm.
  destruct trades as [|trade trades]; [done|]. cbn [nonempty].
  fold (crossoverPoints m (trade :: trades)).
  destruct (crossoverPoints m (trade :: trades)) as [|pt pts] eqn:Hpts; [done|].
  reflexivity.
Qed.

(** C2: for a strictly increasing sequence of oscillator times and a trade
    entry time [te], the alignment selects exactly the smallest index [i]
    with [t_i >= te], and the marker sits at the trade's entry date with
    the oscillator value at that index; when [te] is later than the last
    time (or there is none) the index is [-1], the trade has no marker and
    is left out of the points, and nothing is raised.  The marker of an
    aligned trade is produced: whatever trades come before and after it,
    its point stands in the list of points between theirs, and the last
    trace of the chart, the marker trace, carries its entry date and the
    oscillator value at the selected index at that position. *)
Theorem crossover_alignment (m : macd_series timestamp) (trade : trade timestamp)
    (ts : list Z) (te : Z) :
  Date_getTime <$> macd_timestamps m = Some <$> ts →
  Date_getTime (entry_date trade) = Some te →
  StronglySorted Z.lt ts →
  (∀ i : nat,
     entryIndex m trade = Z.of_nat i
     ↔ ∃ t, ts !! i = Some t ∧ (te <= t)%Z
            ∧ ∀ j t', j < i → ts !! j = Some t' → (t' < te)%Z)
  ∧ (∀ i : nat,
       entryIndex m trade = Z.of_nat i →
       crossoverPoint m trade
       = Some (Point (entry_date trade) (macd_values m !! i)))
  ∧ (entryIndex m trade = (-1)%Z ↔ ∀ tn, last ts = Some tn → (tn < te)%Z)
  ∧ (entryIndex m trade = (-1)%Z →
       crossoverPoint m trade = None
       ∧ ∀ before after,
           crossoverPoints m (before ++ trade :: after)
           = crossoverPoints m (before ++ after))
  ∧ (entryIndex m trade = (-1)%Z
     ∨ ∃ i : nat, entryIndex m trade = Z.of_nat i ∧ i < length ts)
  ∧ (∀ i : nat,
       entryIndex m trade = Z.of_nat i →
       ∀ before after,
         crossoverPoints m (before ++ trade :: after)
         = crossoverPoints m before
           ++ Point (entry_date trade) (macd_values m !! i)
           :: crossoverPoints m after)
  ∧ (∀ i : nat,
       entryIndex m trade = Z.of_nat i →
       ∀ ind before after,
         macd ind = Some m →
         last (chartData (Some ind) (Some (before ++ trade :: after)))
         = Some (ScatterMarkers "MACD Crossover"
                   ((x <$> crossoverPoints m before)
                    ++ entry_date trade :: (x <$> crossoverPoints m after))
                   ((y <$> crossoverPoints m before)
                    ++ macd_values m !! i :: (y <$> crossoverPoints m after))
                   "circle" 8 (OneColor green) None)).
Proof.
  intros Htimes Hte Hsorted.
  assert (Hidx : entryIndex m trade = findIndex_from (λ t, (te <=? t)%Z) ts 0).
  { unfold MACDChart.entryIndex, findIndex. by apply findIndex_from_times. }
  assert (Hpoint_none : entryIndex m trade = (-1)%Z → crossoverPoint m trade = None).
  { intros Hneg. unfold MACDChart.crossoverPoint. cbn zeta.
    fold (entryIndex m trade). by rewrite Hneg. }
  assert (Hpoint_some : ∀ i : nat,
             entryIndex m trade = Z.of_nat i →
             crossoverPoint m trade
             = Some (Point (entry_date trade) (macd_values m !! i))).
  { intros i Hi. unfold MACDChart.crossoverPoint. cbn zeta.
    fold (entryIndex m trade). rewrite Hi.
    destruct (Z.leb_spec 0 (Z.of_nat i)); [|lia]. by rewrite Nat2Z.id. }
  pose proof (findIndex_from_cases (λ t, (te <=? t)%Z) ts 0) as Hcases.
  rewrite <- Hidx in Hcases.
  split; [|split; [|split; [|split; [|split; [|split]]]]].
  - intros i. split.
    + intros Hi.
      destruct Hcases as [[Hneg _] | (n & a & Hn & Hlook & Ha & Hbefore)]; [lia|].
      assert (n = i) as -> by lia.
      exists a. split; [exact Hlook|]. split; [lia|].
      intros j t' Hj Hj'. specialize (Hbefore j t' Hj Hj'). cbn in Hbefore. lia.
    + intros (t & Hlook & Hge & Hbefore). rewrite Hidx.
      rewrite (findIndex_from_found _ ts 0 i t Hlook); [lia | lia |].
      intros j b Hj Hb. specialize (Hbefore j b Hj Hb). lia.
  - exact Hpoint_some.
  - split.
    + intros Hneg tn Hlast.
      destruct Hcases as [[_ Hall] | (n & a & Hn & _)]; [|lia].
      rewrite Forall_forall in Hall.
      specialize (Hall tn (last_Some_elem_of _ _ Hlast)). cbn in Hall. lia.
    + intros Hlast. rewrite Hidx. apply findIndex_from_none.
      apply Forall_forall. intros t Ht.
      destruct (last ts) as [tn|] eqn:Hlast'.
      * pose proof (sorted_below_last ts t tn Hsorted Ht Hlast').
        specialize (Hlast tn eq_refl). lia.
      * apply last_None in Hlast'. subst ts. by apply elem_of_nil in Ht.
  - intros Hneg. split; [by apply Hpoint_none|].
    intros before after. apply crossoverPoints_dropped. by apply Hpoint_none.
  - destruct Hcases as [[Hneg _] | (n & a & Hn & Hlook & _)]; [by left|].
    right. exists n. split; [lia|]. by apply lookup_lt_Some in Hlook.
  - intros i Hi before after.
    apply crossoverPoints_placed. by apply Hpoint_some.
  - intros i Hi ind before after Hm.
    pose proof (crossoverPoints_placed m before after trade _ (Hpoint_some i Hi))
      as Hplaced.
    rewrite (chartData_crossover_trace ind m _ Hm).
    + rewrite Hplaced, !fmap_app, !fmap_cons. reflexivity.
    + rewrite Hplaced. by destruct (crossoverPoints m before).
Qed.

End Chart.

(** Three bars at times 10, 20 and 30: a trade entered at 15 or at 20 has
    its marker on the second bar, and one entered at 31 has none.  Of the
    trades entered at 31, 15 and 5 the chart marks the last two, in that
    order, on the second and the first bar. *)
Lemma crossover_alignment_three_bars :
  crossoverPoint Some Sample.three_bars (Sample.trade_at 15)
  = Some (Point 15%Z (Some (num_of_Z 2)))
  ∧ crossoverPoint Some Sample.three_bars (Sample.trade_at 20)
    = Some (Point 20%Z (Some (num_of_Z 2)))
  ∧ crossoverPoints Some Sample.three_bars [Sample.trade_at 15; Sample.trade_at 31; Sample.trade_at 5]
    = crossoverPoints Some Sample.three_bars [Sample.trade_at 15; Sample.trade_at 5]
  ∧ crossoverPoints Some Sample.three_bars [Sample.trade_at 31; Sample.trade_at 15; Sample.trade_at 5]
    = [Point 15%Z (Some (num_of_Z 2)); Point 5%Z (Some (num_of_Z 1))]
  ∧ last (chartData Some (Some Sample.with_macd)
            (Some [Sample.trade_at 31; Sample.trade_at 15; Sample.trade_at 5]))
    = Some (ScatterMarkers "MACD Crossover" [15; 5]%Z
              [Some (num_of_Z 2); Some (num_of_Z 1)]
              "circle" 8 (OneColor green) None).
Proof.
  assert (Hsorted : StronglySorted Z.lt [10; 20; 30]%Z).
  { repeat constructor; lia. }
  split; [|split; [|split; [|split]]].
  - destruct (crossover_alignment Some Sample.three_bars (Sample.trade_at 15) [10; 20; 30]%Z 15%Z
                eq_refl eq_refl Hsorted) as (_ & Hpoint & _).
    apply (Hpoint 1). reflexivity.
  - destruct (crossover_alignment Some Sample.three_bars (Sample.trade_at 20) [10; 20; 30]%Z 20%Z
                eq_refl eq_refl Hsorted) as (_ & Hpoint & _).
    apply (Hpoint 1). reflexivity.
  - destruct (crossover_alignment Some Sample.three_bars (Sample.trade_at 31) [10; 20; 30]%Z 31%Z
                eq_refl eq_refl Hsorted) as (_ & _ & _ & Hdrop & _).
    destruct (Hdrop eq_refl) as [_ Hleft].
    exact (Hleft [Sample.trade_at 15] [Sample.trade_at 5]).
  - destruct (crossover_alignment Some Sample.three_bars (Sample.trade_at 15) [10; 20; 30]%Z 15%Z
                eq_refl eq_refl Hsorted) as (_ & _ & _ & _ & _ & Hplaced & _).
    exact (Hplaced 1 eq_refl [Sample.trade_at 31] [Sample.trade_at 5]).
  - destruct (crossover_alignment Some Sample.three_bars (Sample.trade_at 15) [10; 20; 30]%Z 15%Z
                eq_refl eq_refl Hsorted) as (_ & _ & _ & _ & _ & _ & Htrace).
    exact (Htrace 1 eq_refl Sample.with_macd
             [Sample.trade_at 31] [Sample.trade_at 5] eq_refl).
Defined.

End MACDChartSpec.

(** ** The price chart *)

Module CandlestickChartSpec.
Import Js Plot CandlestickChart.

Lemma nonempty_true {A} (l : list A) : l ≠ [] → nonempty l = true.
Proof. by destruct l. Qed.

Lemma nonempty_fmap {A B} (f : A → B) (l : list A) :
  nonempty (f <$> l) = nonempty l.
Proof. by destruct l. Qed.

Section Chart.

Context (Number_toString : spec_float → string).
Context {timestamp : Type}.

Local Abbreviation toFixed := (Js.toFixed Number_toString).
Local Abbreviation chartData := (CandlestickChart.chartData Number_toString).
Local Abbreviation exit_text_of := (CandlestickChart.exit_text_of Number_toString).
Local Abbreviation exit_signals := (CandlestickChart.exit_signals Number_toString).

(** With trades, the chart ends with the entry markers and then the exit
    markers, each built over all the trades in their order. *)
Lemma chartData_with_trades (d : market_data timestamp) (ind : indicators timestamp)
    (ts : list (trade timestamp)) :
  ts ≠ [] →
  chartData (Some d) (Some ind) (Some ts)
  = [candles d]
    ++ match ema_200 ind with
       | Some ema =>
           if nonempty (ema_values ema) then
             [ScatterLines "200 EMA" (ema_timestamps ema) (ema_values ema) "#FFD700"]
           else []
       | None => []
       end
    ++ [buy_signals ts; exit_signals ts].
Proof.
  intros Hts. unfold CandlestickChart.chartData.
  rewrite (nonempty_true ts Hts). cbn zeta.
  unfold entryPoints, exitPoints. rewrite !nonempty_fmap, (nonempty_true ts Hts).
  unfold buy_signals, CandlestickChart.exit_signals, candles.
  rewrite <- !list_fmap_compose. reflexivity.
Qed.

(** C5: the price view is the empty list whenever the dataset or the
    indicators are absent; and for a dataset of [N] bars, an EMA series
    that is not empty and at least one trade it consists of one OHLC trace
    of [N] bars, one EMA trace, the entry markers of all [M] trades at
    (entry date, entry price) and the exit markers of all [M] trades at
    (exit date, exit price), in that order. *)
Theorem chartData_price_view (d : market_data timestamp) (ind : indicators timestamp)
    (ema : ema_series timestamp) (ts : list (trade timestamp)) (N M : nat) :
  ema_200 ind = Some ema →
  ema_values ema ≠ [] →
  ts ≠ [] →
  length (ohlcv d) = N →
  length ts = M →
  (∀ (i : option (indicators timestamp)) t, chartData None i t = [])
  ∧ (∀ (d' : option (market_data timestamp)) t, chartData d' None t = [])
  ∧ chartData (Some d) (Some ind) (Some ts)
    = [ Candlestick "Price" (data_timestamps d)
          (Open <$> ohlcv d) (High <$> ohlcv d) (Low <$> ohlcv d) (Close <$> ohlcv d);
        ScatterLines "200 EMA" (ema_timestamps ema) (ema_values ema) "#FFD700";
        ScatterMarkers "Buy Signals"
          (entry_date <$> ts) ((λ t, Some (entry_price t)) <$> ts)
          "triangle-up" 12 (OneColor green) None;
        ScatterMarkers "Exit Signals"
          (exit_date <$> ts) ((λ t, Some (exit_price t)) <$> ts)
          "triangle-down" 10
          (PerPoint (exit_color_of <$> ts)) (Some (exit_text_of <$> ts)) ]
  ∧ (length (Open <$> ohlcv d) = N ∧ length (High <$> ohlcv d) = N
     ∧ length (Low <$> ohlcv d) = N ∧ length (Close <$> ohlcv d) = N)
  ∧ (length (entry_date <$> ts) = M ∧ length (exit_date <$> ts) = M)
  ∧ (∀ i t, ts !! i = Some t →
       (entry_date <$> ts) !! i = Some (entry_date t)
       ∧ ((λ t, Some (entry_price t)) <$> ts) !! i = Some (Some (entry_price t))
       ∧ (exit_date <$> ts) !! i = Some (exit_date t)
       ∧ ((λ t, Some (exit_price t)) <$> ts) !! i = Some (Some (exit_price t))).
Proof.
  intros Hema Hvalues Hts HN HM.
  split; [reflexivity|].
  split; [by intros [d'|] t|].
  split.
  - rewrite (chartData_with_trades d ind ts Hts), Hema.
    by rewrite (nonempty_true _ Hvalues).
  - rewrite !length_fmap. repeat split; try assumption;
      rewrite list_lookup_fmap; by rewrite H.
Qed.

(** C8: the exit marker of every trade is the profit colour exactly when
    [return_pct > 0], so that a return of zero is shown as a loss, and its
    text is made of [exit_reason] and of [return_pct] as a percentage with
    two decimals; a trade with [return_pct = -0.013] stopped by
    ["stop_loss"] is shown as a loss with the text
    ["stop_loss<br>Return: -1.30%"]. *)
Theorem exit_marker_classification (d : market_data timestamp)
    (ind : indicators timestamp) (ts : list (trade timestamp)) :
  ts ≠ [] →
  ∃ colors text,
    last (chartData (Some d) (Some ind) (Some ts))
    = Some (ScatterMarkers "Exit Signals"
              (exit_date <$> ts) ((λ t, Some (exit_price t)) <$> ts)
              "triangle-down" 10 (PerPoint colors) (Some text))
    ∧ (∀ i t, ts !! i = Some t →
         (colors !! i = Some green ↔ gt (return_pct t) (num_of_Z 0) = true)
         ∧ (colors !! i = Some red ↔ gt (return_pct t) (num_of_Z 0) = false)
         ∧ (is_zero_or_nan (return_pct t) = true → colors !! i = Some red)
         ∧ text !! i
           = Some (exit_reason t +:+ "<br>Return: "
                     +:+ toFixed (num_mul (return_pct t) (num_of_Z 100)) 2 +:+ "%")
         ∧ (return_pct t = neg (decimal 13 3) → exit_reason t = "stop_loss" →
              colors !! i = Some red
              ∧ text !! i = Some "stop_loss<br>Return: -1.30%")).
Proof.
  intros Hts. exists (exit_color_of <$> ts), (exit_text_of <$> ts). split.
  - rewrite (chartData_with_trades d ind ts Hts).
    rewrite app_assoc. change [buy_signals ts; exit_signals ts]
      with ([buy_signals ts] ++ [exit_signals ts]).
    rewrite app_assoc. by rewrite last_snoc.
  - intros i t Hi. rewrite !list_lookup_fmap, Hi. cbn [fmap option_fmap option_map].
    unfold exit_color_of, CandlestickChart.exit_text_of.
    split; [|split; [|split; [|split]]].
    + unfold green, red.
      destruct (gt (return_pct t) (num_of_Z 0)); split; intros Heq;
        first [reflexivity | discriminate Heq].
    + unfold green, red.
      destruct (gt (return_pct t) (num_of_Z 0)); split; intros Heq;
        first [reflexivity | discriminate Heq].
    + intros Hzero. by destruct (return_pct t) as [[]|[]| |].
    + reflexivity.
    + intros -> ->. repeat split; reflexivity.
Qed.

End Chart.

(** A chart of two bars with an EMA and one trade has its four traces. *)
Lemma chartData_price_view_sample :
  (∀ i t, chartData Sample.print_number (timestamp := Z) None i t = [])
  ∧ (∀ d' t, chartData Sample.print_number (timestamp := Z) d' None t = [])
  ∧ chartData Sample.print_number (Some Sample.two_bars) (Some Sample.with_ema)
      (Some [Sample.stopped_out])
    = [ Candlestick "Price" [10; 20]%Z
          [num_of_Z 1; num_of_Z 2] [num_of_Z 3; num_of_Z 4]
          [num_of_Z 1; num_of_Z 2] [num_of_Z 2; num_of_Z 3];
        ScatterLines "200 EMA" [10; 20]%Z [num_of_Z 2; num_of_Z 2] "#FFD700";
        ScatterMarkers "Buy Signals" [10%Z] [Some (num_of_Z 1000)]
          "triangle-up" 12 (OneColor green) None;
        ScatterMarkers "Exit Signals" [20%Z] [Some (num_of_Z 987)]
          "triangle-down" 10 (PerPoint [red])
          (Some ["stop_loss<br>Return: -1.30%"]) ].
Proof.
  destruct (chartData_price_view Sample.print_number Sample.two_bars Sample.with_ema
              (Ema [10; 20]%Z [num_of_Z 2; num_of_Z 2]) [Sample.stopped_out] 2 1
              eq_refl ltac:(discriminate) ltac:(discriminate) eq_refl eq_refl)
    as (Hdata & Hind & Hchart & _).
  split; [exact Hdata|]. split; [exact Hind|]. rewrite Hchart. reflexivity.
Defined.

(** The exit marker of the trade stopped out at -1.3 percent. *)
Lemma exit_marker_stopped_out :
  ∃ colors text,
    last (chartData Sample.print_number (Some Sample.two_bars) (Some Sample.with_ema)
            (Some [Sample.stopped_out]))
    = Some (ScatterMarkers "Exit Signals" [20%Z] [Some (num_of_Z 987)]
              "triangle-down" 10 (PerPoint colors) (Some text))
    ∧ colors !! 0 = Some red
    ∧ text !! 0 = Some "stop_loss<br>Return: -1.30%".
Proof.
  destruct (exit_marker_classification Sample.print_number Sample.two_bars
              Sample.with_ema [Sample.stopped_out] ltac:(discriminate))
    as (colors & text & Hlast & Hall).
  exists colors, text. split; [exact Hlast|].
  destruct (Hall 0 Sample.stopped_out eq_refl) as (_ & _ & _ & _ & Hstop).
  exact (Hstop eq_refl eq_refl).
Defined.

End CandlestickChartSpec.

(** ** The metric classifier *)

Module PerformanceMetricsSpec.
Import Js PerformanceMetrics.

(** Comparing the other way round gives the opposite answer. *)
Lemma SFcompare_swap (a b : spec_float) :
  SFcompare b a = CompOpp <$> SFcompare a b.
Proof.
  destruct a as [sa | sa | | sa ma ea], b as [sb | sb | | sb mb eb];
    try destruct sa; try destruct sb; try reflexivity; cbn;
    rewrite (Z.compare_antisym ea eb); destruct (ea ?= eb)%Z; cbn;
    try reflexivity; rewrite ?CompOpp_involutive;
    first [ by rewrite (Pos.compare_cont_antisym ma mb Eq)
          | by rewrite (Pos.compare_cont_antisym mb ma Eq) ].
Qed.

(** Negating both sides reverses a comparison. *)
Lemma SFcompare_opp (a b : spec_float) :
  SFcompare (SFopp a) (SFopp b) = SFcompare b a.
Proof.
  destruct a as [sa | sa | | sa ma ea], b as [sb | sb | | sb mb eb];
    try destruct sa; try destruct sb; try reflexivity; cbn;
    rewrite (Z.compare_antisym ea eb); destruct (ea ?= eb)%Z; cbn;
    try reflexivity; rewrite ?CompOpp_involutive;
    first [ by rewrite (Pos.compare_cont_antisym ma mb Eq)
          | by rewrite (Pos.compare_cont_antisym mb ma Eq) ].
Qed.

(** [a > b] and [a < b] never hold together. *)
Lemma gt_excludes_lt (a b : spec_float) : gt a b = true → lt a b = false.
Proof.
  unfold gt, lt, SFltb. rewrite (SFcompare_swap a b).
  by destruct (SFcompare a b) as [[]|].
Qed.

Lemma neg_gt_neg (a b : spec_float) : gt (neg a) (neg b) = lt a b.
Proof. unfold gt, lt, neg, SFltb. by rewrite SFcompare_opp. Qed.

(** The magnitude of a number that is not negative is the number itself,
    as far as comparisons go. *)
Lemma abs_of_nonnegative (d t : spec_float) :
  lt d (num_of_Z 0) = false → lt (SFabs d) t = lt d t.
Proof. by destruct d as [[] | [] | | [] m e]. Qed.

(** A number below zero is below ten. *)
Lemma lt_zero_lt_ten (d : spec_float) :
  lt d (num_of_Z 0) = true → lt d (num_of_Z 10) = true.
Proof. by destruct d as [[] | [] | | [] m e]. Qed.

(** C6 (as stated, refuted): a maximum drawdown of -50 is classified
    positive although its magnitude, 50, is not below 10. *)
Lemma negative_drawdown_is_positive :
  maxDrawdownType Sample.negative_drawdown = "positive"
  ∧ SFabs (max_drawdown Sample.negative_drawdown) = num_of_Z 50
  ∧ lt (SFabs (max_drawdown Sample.negative_drawdown)) (num_of_Z 10) = false.
Proof. repeat split; vm_compute; reflexivity. Qed.

(** C6 (amended): [getMetricType(value, threshold)] is ["positive"] exactly
    when [value > threshold], ["negative"] exactly when [value < threshold]
    and ["neutral"] otherwise; it gives the five listed results; and the
    maximum drawdown, classified through
    [getMetricType(-max_drawdown, -10)], is positive exactly when
    [max_drawdown] itself, sign included, is below 10: for a drawdown that
    is not negative that is when its magnitude is below 10, and a negative
    drawdown is positive whatever its magnitude. *)
Theorem getMetricType_classifies :
  (∀ value threshold,
     getMetricType value (Some threshold) = "positive" ↔ gt value threshold = true)
  ∧ (∀ value threshold,
       getMetricType value (Some threshold) = "negative" ↔ lt value threshold = true)
  ∧ (∀ value threshold,
       getMetricType value (Some threshold) = "neutral"
       ↔ gt value threshold = false ∧ lt value threshold = false)
  ∧ (∀ value, getMetricType value None = getMetricType value (Some (num_of_Z 0)))
  ∧ getMetricType (num_of_Z 5) (Some (num_of_Z 0)) = "positive"
  ∧ getMetricType (neg (num_of_Z 5)) (Some (num_of_Z 0)) = "negative"
  ∧ getMetricType (num_of_Z 0) (Some (num_of_Z 0)) = "neutral"
  ∧ getMetricType (num_of_Z 45) (Some (num_of_Z 50)) = "negative"
  ∧ getMetricType (decimal 15 1) (Some (num_of_Z 1)) = "positive"
  ∧ (∀ p, maxDrawdownType p = "positive" ↔ lt (max_drawdown p) (num_of_Z 10) = true)
  ∧ (∀ p, lt (max_drawdown p) (num_of_Z 0) = false →
       (maxDrawdownType p = "positive"
        ↔ lt (SFabs (max_drawdown p)) (num_of_Z 10) = true))
  ∧ (∀ p, lt (max_drawdown p) (num_of_Z 0) = true →
       maxDrawdownType p = "positive").
Proof.
  assert (Hpos : ∀ value threshold,
             getMetricType value (Some threshold) = "positive"
             ↔ gt value threshold = true).
  { intros value threshold. unfold getMetricType. cbn [default from_option id].
    destruct (gt value threshold); [done|].
    by destruct (lt value threshold). }
  split; [exact Hpos|].
  split; [|split; [|split; [|repeat (split; [reflexivity|])]]].
  - intros value threshold. unfold getMetricType. cbn [default from_option id].
    destruct (gt value threshold) eqn:Hgt.
    + rewrite (gt_excludes_lt value threshold Hgt). done.
    + by destruct (lt value threshold).
  - intros value threshold. unfold getMetricType. cbn [default from_option id].
    destruct (gt value threshold), (lt value threshold); split;
      first [ discriminate | intros [Hgt Hlt]; discriminate | done ].
  - reflexivity.
  - split; [|split].
    + intros p. unfold maxDrawdownType. rewrite Hpos. by rewrite neg_gt_neg.
    + intros p Hsign. unfold maxDrawdownType. rewrite Hpos, neg_gt_neg.
      by rewrite (abs_of_nonnegative _ _ Hsign).
    + intros p Hsign. unfold maxDrawdownType. rewrite Hpos, neg_gt_neg.
      by apply lt_zero_lt_ten.
Qed.

End PerformanceMetricsSpec.

(* ===================================================================== *)
(** * Further properties of the code *)
(* ===================================================================== *)

(** ** The store reducer: frame, merges, unknown actions *)

Module TradingContextProps.
Import Js JsFacts TradingContext.

(** Split on the [case] taken, keeping what each test says about the type. *)
Ltac by_type t :=
  unfold tradingReducer; cbn [type payload];
  repeat
    match goal with
    | |- context [String.eqb t ?c] =>
        let E := fresh "Etype" in
        destruct (String.eqb_spec t c) as [E | E]
    end.

(** X1: an action whose type is none of [actionTypes] leaves the state as
    it is. *)
Theorem unknown_action_is_ignored (state : gmap string value) (a : action) :
  type a ∉ actionTypes →
  tradingReducer state a = state.
Proof.
  intros Hunknown. destruct a as [t p]. cbn [type] in Hunknown.
  by_type t; try reflexivity;
    exfalso; apply Hunknown; subst t; unfold actionTypes; set_solver.
Qed.

Lemma unknown_action_sample :
  tradingReducer initialState (Action "RESET_ALL" (VObj {[ "loading" := VBool true ]}))
  = initialState.
Proof.
  apply (unknown_action_is_ignored initialState
           (Action "RESET_ALL" (VObj {[ "loading" := VBool true ]}))).
  cbn [type]. unfold actionTypes. intros Hin.
  repeat (apply elem_of_cons in Hin as [Hin | Hin]; [discriminate Hin|]).
  by apply elem_of_nil in Hin.
Defined.

Lemma reducer_keeps_dom (state : gmap string value) (a : action) :
  dom state ⊆ dom (tradingReducer state a).
Proof.
  destruct a as [t p].
  by_type t; rewrite ?dom_insert_L, ?dom_union_L; set_solver.
Qed.

(** X2: no transition ever removes a property of the state: every name
    defined before a run of transitions is defined after each of them. *)
Theorem reducer_never_removes_a_property
    (state : gmap string value) (actions : list action) :
  Forall (λ state', dom state ⊆ dom state') (dispatched state actions).
Proof.
  revert state. induction actions as [|a actions IH]; intros state; cbn.
  - constructor.
  - pose proof (reducer_keeps_dom state a) as Hstep.
    constructor; [exact Hstep|].
    eapply Forall_impl; [apply IH|].
    intros state' Hsub. cbn in Hsub. set_solver.
Qed.

Lemma non_merge_keeps_config (state : gmap string value) (a : action) (k : string) :
  k ∉ result_fields → is_merge a = false →
  tradingReducer state a !! k = state !! k.
Proof.
  intros Hk Hmerge. destruct a as [t p]. unfold is_merge in Hmerge.
  cbn [type] in Hmerge. apply orb_false_elim in Hmerge as [Hc Hp].
  apply String.eqb_neq in Hc, Hp.
  by_type t; try contradiction; try reflexivity;
    rewrite ?lookup_insert_ne; try reflexivity;
    intros <-; apply Hk; unfold result_fields; set_solver.
Qed.

(** X3: the configuration is changed by merges only: along any run of
    transitions none of which is [UPDATE_CONFIG] or
    [UPDATE_STRATEGY_PARAMS], every property other than the eight result
    and status fields keeps the value (or the absence) it had. *)
Theorem config_changed_only_by_merges
    (state : gmap string value) (actions : list action) (k : string) :
  k ∉ result_fields →
  Forall (λ a, is_merge a = false) actions →
  Forall (λ state', state' !! k = state !! k) (dispatched state actions).
Proof.
  intros Hk Hactions. revert state.
  induction Hactions as [|a actions Ha _ IH]; intros state; cbn.
  - constructor.
  - pose proof (non_merge_keeps_config state a k Hk Ha) as Hstep.
    constructor; [exact Hstep|].
    eapply Forall_impl; [apply IH|].
    intros state' Hsame. cbn in Hsame. by rewrite Hsame.
Qed.

Lemma config_survives_a_failed_load :
  Forall (λ state', state' !! "symbol" = Some (VStr "ROSEUSDT"))
         (dispatched initialState
            [ setLoading (VBool true); setError (VStr "Failed to fetch data");
              setLoading (VBool true); setData (VObj ∅); setTrades (VArr []);
              clearData ]).
Proof.
  apply (config_changed_only_by_merges initialState
           [ setLoading (VBool true); setError (VStr "Failed to fetch data");
             setLoading (VBool true); setData (VObj ∅); setTrades (VArr []);
             clearData ] "symbol").
  - unfold result_fields. intros Hin.
    repeat (apply elem_of_cons in Hin as [Hin | Hin]; [discriminate Hin|]).
    by apply elem_of_nil in Hin.
  - repeat constructor.
Defined.

(** X4: merges.  A payload with no own property ([null], [undefined], a
    boolean, a number) changes nothing and raises nothing; a merged name
    takes the payload's value and every other name keeps its own; two
    merges in a row are the merge of the second payload laid over the
    first; merging the same payload twice is merging it once; and
    [UPDATE_STRATEGY_PARAMS] does what [UPDATE_CONFIG] does. *)
Theorem merge_laws (state : gmap string value) :
  tradingReducer state (updateConfig VNull) = state
  ∧ tradingReducer state (updateConfig VUndefined) = state
  ∧ (∀ b, tradingReducer state (updateConfig (VBool b)) = state)
  ∧ (∀ x, tradingReducer state (updateConfig (VNum x)) = state)
  ∧ (∀ (p : gmap string value) k,
       tradingReducer state (updateConfig (VObj p)) !! k
       = match p !! k with Some v => Some v | None => state !! k end)
  ∧ (∀ p1 p2 : gmap string value,
       tradingReducer (tradingReducer state (updateConfig (VObj p1)))
                      (updateConfig (VObj p2))
       = tradingReducer state (updateConfig (VObj (p2 ∪ p1))))
  ∧ (∀ p, tradingReducer (tradingReducer state (updateConfig p)) (updateConfig p)
          = tradingReducer state (updateConfig p))
  ∧ (∀ p, tradingReducer state (updateStrategyParams p)
          = tradingReducer state (updateConfig p)).
Proof.
  repeat split; try (intros; cbn; by rewrite (left_id_L ∅ (∪))).
  - intros p k. cbn. rewrite lookup_union. by destruct (p !! k), (state !! k).
  - intros p1 p2. cbn. by rewrite (assoc_L (∪)).
  - intros p. cbn. rewrite (assoc_L (∪)). by rewrite (idemp_L (∪)).
Qed.

End TradingContextProps.

(** ** The backend hook: outcomes of the calls *)

Module UseTradingDataProps.
Import Js JsFacts UseTradingData UseTradingDataSpec.

Section Hook.

Context (Number_toString : spec_float → string).
Context (TypeError_message : value → string → string).
Context (REACT_APP_API_URL : option string).
Context (axios_get : string → value → settled).
Context (axios_post : string → value → value → settled).

Local Abbreviation get := (Js.get TypeError_message).
Local Abbreviation path := (Js.path TypeError_message).
Local Abbreviation failure_message := (failure_message TypeError_message).
Local Abbreviation backtest_body := (backtest_body TypeError_message).
Local Abbreviation data_url symbol interval :=
  (API_BASE_URL REACT_APP_API_URL +:+ "/api/data/"
     +:+ ToString Number_toString symbol +:+ "/"
     +:+ ToString Number_toString interval).
Local Abbreviation data_params daysBack timezone :=
  (VObj {[ "params" :=
             VObj (<["days" := default_arg daysBack (VNum (num_of_Z 7))]>
                     {[ "timezone" := default_arg timezone (VStr "Asia/Singapore") ]}) ]}).
Local Abbreviation backtest_url symbol interval :=
  (API_BASE_URL REACT_APP_API_URL +:+ "/api/backtest/"
     +:+ ToString Number_toString symbol +:+ "/"
     +:+ ToString Number_toString interval).
Local Abbreviation fetchData_try :=
  (fetchData_try Number_toString TypeError_message REACT_APP_API_URL axios_get).
Local Abbreviation fetchData_catch := (fetchData_catch TypeError_message).
Local Abbreviation fetchData :=
  (fetchData Number_toString TypeError_message REACT_APP_API_URL axios_get).
Local Abbreviation runBacktest_try :=
  (runBacktest_try Number_toString TypeError_message REACT_APP_API_URL axios_post).
Local Abbreviation runBacktest_catch := (runBacktest_catch TypeError_message).
Local Abbreviation runBacktest :=
  (runBacktest Number_toString TypeError_message REACT_APP_API_URL axios_post).

(** *** Reads *)

Lemma get_nonnullish (d : value) (k : string) :
  is_nullish d = false → ∃ y, get d k = Normal y.
Proof. destruct d; try discriminate; cbn; eauto. Qed.

Lemma get_normal_nonnullish (d x : value) (k : string) :
  get d k = Normal x → is_nullish d = false.
Proof. by destruct d. Qed.

(** A read two levels deep that succeeds went through a value that is
    neither [null] nor [undefined]. *)
Lemma path2_normal (v x : value) (k1 k2 : string) :
  path v [k1; k2] = Normal x →
  ∃ d, get v k1 = Normal d ∧ is_nullish d = false ∧ get d k2 = Normal x.
Proof.
  cbn [Js.path]. destruct (get v k1) as [d|e] eqn:Hd; [|discriminate].
  destruct (get d k2) as [y|e] eqn:Hy; [|discriminate].
  intros [= <-]. exists d. repeat split; [|exact Hy].
  by apply (get_normal_nonnullish d y k2).
Qed.

(** After one such read, a read of a sibling property succeeds too. *)
Lemma path2_sibling (v x : value) (k1 k2 k3 : string) :
  path v [k1; k2] = Normal x → ∃ y, path v [k1; k3] = Normal y.
Proof.
  intros Hp. destruct (path2_normal v x k1 k2 Hp) as (d & Hd & Hnn & _).
  destruct (get_nonnullish d k3 Hnn) as [y Hy].
  exists y. cbn [Js.path]. by rewrite Hd, Hy.
Qed.

(** Taking the message of what was caught never writes to the store. *)
Lemma failure_message_store (err : value) (fallback : string) (s : store) :
  (failure_message err fallback s).1 = s.
Proof.
  unfold UseTradingData.failure_message, bind, lift.
  destruct (optional_chain3 TypeError_message err "response" "data" "error")
    as [a|e]; [|reflexivity].
  destruct (ToBoolean a); [reflexivity|].
  by destruct (get err "message").
Qed.

(** *** The [try] blocks *)

(** The [try] block of [fetchData] writes [data] and [indicators] only,
    and when it throws it has written nothing. *)
Lemma fetchData_try_store (symbol interval daysBack timezone : value)
    (s s' : store) (r : completion value) :
  fetchData_try symbol interval daysBack timezone s = (s', r) →
  trades s' = trades s ∧ performance s' = performance s
  ∧ loading s' = loading s ∧ error s' = error s
  ∧ (∀ e, r = Throw e → s' = s).
Proof.
  unfold UseTradingData.fetchData_try, bind, lift.
  destruct (await _ s) as [s0 [response|e0]] eqn:Hawait.
  2:{ unfold await in Hawait. destruct (axios_get _ _); cbn in Hawait;
        injection Hawait as <- ?; try discriminate.
      intros [= <- <-]. by repeat split. }
  assert (s0 = s) as ->.
  { unfold await in Hawait. destruct (axios_get _ _); cbn in Hawait;
      by injection Hawait as <- ?. }
  destruct (path response ["data"; "success"]) as [success|e1] eqn:Hsuccess.
  2:{ intros [= <- <-]. by repeat split. }
  destruct (ToBoolean success).
  - destruct (path2_sibling response success "data" "success" "data" Hsuccess)
      as [d Hd].
    destruct (path2_sibling response success "data" "success" "indicators" Hsuccess)
      as [i Hi].
    rewrite Hd. cbn [setData]. rewrite Hi. cbn [setIndicators ret].
    intros [= <- <-]. cbn. repeat split. intros e. discriminate.
  - destruct (path2_sibling response success "data" "success" "error" Hsuccess)
      as [e2 He2].
    rewrite He2. cbn [throw]. intros [= <- <-]. by repeat split.
Qed.

(** The [try] block of [runBacktest] writes [trades] and [performance]
    only, and when it throws it has written nothing. *)
Lemma runBacktest_try_store (symbol interval config : value)
    (s s' : store) (r : completion value) :
  runBacktest_try symbol interval config s = (s', r) →
  data s' = data s ∧ indicators s' = indicators s
  ∧ loading s' = loading s ∧ error s' = error s
  ∧ (∀ e, r = Throw e → s' = s).
Proof.
  unfold UseTradingData.runBacktest_try, bind, lift.
  destruct (backtest_body config) as [body|e0].
  2:{ intros [= <- <-]. by repeat split. }
  destruct (await _ s) as [s0 [response|e0]] eqn:Hawait.
  2:{ unfold await in Hawait. destruct (axios_post _ _ _); cbn in Hawait;
        injection Hawait as <- ?; try discriminate.
      intros [= <- <-]. by repeat split. }
  assert (s0 = s) as ->.
  { unfold await in Hawait. destruct (axios_post _ _ _); cbn in Hawait;
      by injection Hawait as <- ?. }
  destruct (path response ["data"; "success"]) as [success|e1] eqn:Hsuccess.
  2:{ intros [= <- <-]. by repeat split. }
  destruct (ToBoolean success).
  - destruct (path2_sibling response success "data" "success" "results" Hsuccess)
      as [results Hresults].
    rewrite Hresults.
    destruct (get results "trades") as [t|e3] eqn:Ht.
    2:{ intros [= <- <-]. by repeat split. }
    destruct (get_nonnullish results "performance"
                (get_normal_nonnullish results t "trades" Ht)) as [p Hp].
    cbn [setTrades]. rewrite Hp. cbn [setPerformance ret].
    intros [= <- <-]. cbn. repeat split. intros e. discriminate.
  - destruct (path2_sibling response success "data" "success" "error" Hsuccess)
      as [e2 He2].
    rewrite He2. cbn [throw]. intros [= <- <-]. by repeat split.
Qed.

(** *** [loading] *)

Lemma try_finally_setLoading {A} (body : M A) (v : value) (s : store) :
  loading (try_finally body (setLoading v) s).1 = v.
Proof. unfold try_finally. by destruct (body s). Qed.

(** X5: whatever the network answers, whatever is thrown and whatever the
    store held, [loading] is [false] once [fetchData] or [runBacktest] has
    settled. *)
Theorem loading_is_false_after_a_call
    (symbol interval daysBack timezone config : value) (s : store) :
  loading (fetchData symbol interval daysBack timezone s).1 = VBool false
  ∧ loading (runBacktest symbol interval config s).1 = VBool false.
Proof.
  split.
  - unfold UseTradingData.fetchData, bind at 1 2. cbn [setLoading setError].
    apply try_finally_setLoading.
  - unfold UseTradingData.runBacktest, bind at 1 2. cbn [setLoading setError].
    apply try_finally_setLoading.
Qed.

(** *** Failure leaves the results alone *)

Lemma same_results_status (s : store) (l e : value) :
  same_results s (Store (data s) (indicators s) (trades s) (performance s) l e).
Proof. by repeat split. Qed.

(** X6: a call that ends in failure has not touched the results: when
    [fetchData] or [runBacktest] leaves an error in the store, and whenever
    [runBacktest] rejects, [data], [indicators], [trades] and [performance]
    are what they were before the call. *)
Theorem failed_call_keeps_results
    (symbol interval daysBack timezone config : value) (s : store) :
  (is_null (error (fetchData symbol interval daysBack timezone s).1) = false →
     same_results s (fetchData symbol interval daysBack timezone s).1)
  ∧ (is_null (error (runBacktest symbol interval config s).1) = false →
       same_results s (runBacktest symbol interval config s).1)
  ∧ (∀ e, (runBacktest symbol interval config s).2 = Throw e →
       same_results s (runBacktest symbol interval config s).1).
Proof.
  split; [|split].
  - unfold UseTradingData.fetchData, bind.
    cbn [setLoading setError data indicators trades performance loading error].
    fold (started s). unfold try_finally, try_catch.
    destruct (fetchData_try symbol interval _ _ (started s)) as [s' r] eqn:Htry.
    destruct (fetchData_try_store _ _ _ _ _ _ _ Htry) as (_ & _ & _ & He & Hthrow).
    destruct r as [v|e].
    + cbn. rewrite He. cbn. discriminate.
    + rewrite (Hthrow e eq_refl). unfold UseTradingData.fetchData_catch, bind.
      pose proof (failure_message_store e "Failed to fetch data" (started s)) as Hfm.
      destruct (failure_message e "Failed to fetch data" (started s)) as [s1 [msg|e']];
        cbn in Hfm; subst s1; cbn; intros _; by repeat split.
  - unfold UseTradingData.runBacktest, bind.
    cbn [setLoading setError data indicators trades performance loading error].
    fold (started s). unfold try_finally, try_catch.
    destruct (runBacktest_try symbol interval config (started s)) as [s' r] eqn:Htry.
    destruct (runBacktest_try_store _ _ _ _ _ _ Htry) as (_ & _ & _ & He & Hthrow).
    destruct r as [v|e].
    + cbn. rewrite He. cbn. discriminate.
    + rewrite (Hthrow e eq_refl). unfold UseTradingData.runBacktest_catch, bind.
      pose proof (failure_message_store e "Backtest failed" (started s)) as Hfm.
      destruct (failure_message e "Backtest failed" (started s)) as [s1 [msg|e']];
        cbn in Hfm; subst s1; cbn; intros _; by repeat split.
  - intros e0. unfold UseTradingData.runBacktest, bind.
    cbn [setLoading setError data indicators trades performance loading error].
    fold (started s). unfold try_finally, try_catch.
    destruct (runBacktest_try symbol interval config (started s)) as [s' r] eqn:Htry.
    destruct (runBacktest_try_store _ _ _ _ _ _ Htry) as (_ & _ & _ & He & Hthrow).
    destruct r as [v|e].
    + cbn. discriminate.
    + rewrite (Hthrow e eq_refl). unfold UseTradingData.runBacktest_catch, bind.
      pose proof (failure_message_store e "Backtest failed" (started s)) as Hfm.
      destruct (failure_message e "Backtest failed" (started s)) as [s1 [msg|e']];
        cbn in Hfm; subst s1; cbn; intros _; by repeat split.
Qed.

(** *** Success *)

(** X7: when the data request is answered with a body that says
    [success], [fetchData] stores the body's [data] and [indicators]
    ([undefined] for one that is missing), ends with [loading = false] and
    [error = null], so that an earlier error is gone, leaves [trades] and
    [performance] alone, and resolves. *)
Theorem fetchData_success
    (symbol interval daysBack timezone : value) (r d : gmap string value)
    (s : store) :
  axios_get (data_url symbol interval) (data_params daysBack timezone)
  = Fulfilled (VObj r) →
  r !! "data" = Some (VObj d) →
  ToBoolean (prop d "success") = true →
  fetchData symbol interval daysBack timezone s
  = (Store (prop d "data") (prop d "indicators") (trades s) (performance s)
           (VBool false) VNull,
     Normal VUndefined).
Proof.
  intros Hget Hdata Hsuccess.
  unfold UseTradingData.fetchData, bind at 1 2.
  cbn [setLoading setError data indicators trades performance loading error].
  unfold try_finally, try_catch, UseTradingData.fetchData_try, bind, lift.
  rewrite Hget. cbn [await ret Js.path Js.get].
  rewrite (prop_lookup r "data" (VObj d) Hdata). cbn [Js.get].
  rewrite Hsuccess. reflexivity.
Qed.

(** X8: when the backtest request is answered with a body that says
    [success] and carries [results], [runBacktest] stores
    [results.trades || []] and [results.performance || null], so that a
    missing list of trades becomes the empty list and a missing summary
    [null]; it ends with [loading = false] and [error = null], leaves
    [data] and [indicators] alone, and resolves with the results. *)
Theorem runBacktest_success
    (symbol interval config body : value) (r d res : gmap string value)
    (s : store) :
  backtest_body config = Normal body →
  axios_post (backtest_url symbol interval) body json_headers = Fulfilled (VObj r) →
  r !! "data" = Some (VObj d) →
  ToBoolean (prop d "success") = true →
  prop d "results" = VObj res →
  runBacktest symbol interval config s
  = (Store (data s) (indicators s)
           (or (prop res "trades") (VArr []))
           (or (prop res "performance") VNull)
           (VBool false) VNull,
     Normal (VObj res))
  ∧ (res !! "trades" = None →
       trades (runBacktest symbol interval config s).1 = VArr [])
  ∧ (res !! "performance" = None →
       performance (runBacktest symbol interval config s).1 = VNull).
Proof.
  intros Hbody Hpost Hdata Hsuccess Hresults.
  assert (Hrun : runBacktest symbol interval config s
    = (Store (data s) (indicators s)
             (or (prop res "trades") (VArr []))
             (or (prop res "performance") VNull)
             (VBool false) VNull,
       Normal (VObj res))).
  { unfold UseTradingData.runBacktest, bind at 1 2.
    cbn [setLoading setError data indicators trades performance loading error].
    unfold try_finally, try_catch, UseTradingData.runBacktest_try, bind, lift.
    rewrite Hbody, Hpost. cbn [await ret Js.path Js.get].
    rewrite (prop_lookup r "data" (VObj d) Hdata). cbn [Js.get].
    rewrite Hsuccess, Hresults. reflexivity. }
  rewrite Hrun. split; [reflexivity|]. cbn. unfold prop.
  split; intros ->; reflexivity.
Qed.

(** *** A missing configuration *)

(** X9: called with a configuration that is [null] or [undefined],
    [runBacktest] fails on the first field it reads, before any request:
    whatever the network would answer, the store ends with the message of
    that [TypeError] (or the default one, should the message be empty) and
    [loading = false], the results are untouched and the call rejects with
    the [TypeError]. *)
Theorem runBacktest_without_config
    (symbol interval config : value) (s : store) :
  is_nullish config = true →
  runBacktest symbol interval config s
  = (Store (data s) (indicators s) (trades s) (performance s) (VBool false)
           (or (VStr (TypeError_message config "days_back")) (VStr "Backtest failed")),
     Throw (VObj {[ "message" := VStr (TypeError_message config "days_back") ]})).
Proof.
  intros Hconfig.
  assert (Hbody : backtest_body config
                  = Throw (VObj {[ "message" :=
                                     VStr (TypeError_message config "days_back") ]})).
  { by destruct config. }
  unfold UseTradingData.runBacktest, bind at 1 2.
  cbn [setLoading setError data indicators trades performance loading error].
  unfold try_finally, try_catch, UseTradingData.runBacktest_try, bind at 1, lift.
  rewrite Hbody.
  unfold UseTradingData.runBacktest_catch, UseTradingData.failure_message, bind, lift,
    optional_chain3.
  cbn [Js.get]. rewrite prop_singleton_ne by discriminate. cbn [is_nullish ToBoolean].
  rewrite prop_singleton_eq. reflexivity.
Qed.

(** *** The request body *)

(** X10: the request body has the seven documented fields and no other:
    a property of the configuration under any other name is not sent; and a
    configuration that is a boolean, a number, a string or an array gives
    the body of the seven defaults. *)
Theorem backtest_body_has_seven_fields (c : gmap string value) :
  (∃ b, backtest_body (VObj c) = Normal (VObj b)
     ∧ dom b = list_to_set backtest_defaults.*1
     ∧ ∀ k, k ∉ backtest_defaults.*1 → b !! k = None)
  ∧ (∀ config,
       match config with
       | VBool _ | VNum _ | VStr _ | VArr _ =>
           backtest_body config = Normal (VObj (list_to_map backtest_defaults))
       | _ => True
       end).
Proof.
  split.
  - eexists. split; [apply backtest_body_object|].
    assert (Hdom : dom (list_to_map
                     ((λ kd, (kd.1, or (prop c kd.1) kd.2)) <$> backtest_defaults)
                   : gmap string value)
                   = list_to_set backtest_defaults.*1).
    { rewrite dom_list_to_map_L. reflexivity. }
    split; [exact Hdom|].
    intros k Hk. apply not_elem_of_dom. rewrite Hdom.
    by rewrite elem_of_list_to_set.
  - by intros [].
Qed.

(** *** The calls outside the load cycle *)

Local Abbreviation startRealTimeStream_try :=
  (startRealTimeStream_try Number_toString TypeError_message REACT_APP_API_URL
     axios_post).
Local Abbreviation startRealTimeStream :=
  (startRealTimeStream Number_toString TypeError_message REACT_APP_API_URL
     axios_post).
Local Abbreviation stopRealTimeStream_try :=
  (stopRealTimeStream_try Number_toString TypeError_message REACT_APP_API_URL
     axios_post).
Local Abbreviation stopRealTimeStream :=
  (stopRealTimeStream Number_toString TypeError_message REACT_APP_API_URL
     axios_post).
Local Abbreviation checkHealth :=
  (checkHealth TypeError_message REACT_APP_API_URL axios_get).

(** A block made of the request and of reads only leaves the store as it
    finds it. *)
Lemma request_and_reads_store (reply : settled) (fallback : string) (s : store) :
  (bind (await reply)
     (λ response,
        bind (lift (path response ["data"; "success"]))
          (λ success,
             if negb (ToBoolean success) then
               bind (lift (path response ["data"; "error"]))
                 (λ e, throw (new_Error Number_toString (or e (VStr fallback))))
             else lift (get response "data"))) s).1 = s.
Proof.
  unfold bind, lift, await.
  destruct reply as [response|err]; cbn [ret throw]; [|reflexivity].
  destruct (path response ["data"; "success"]) as [success|e]; [|reflexivity].
  destruct (negb (ToBoolean success)); [|reflexivity].
  by destruct (path response ["data"; "error"]).
Qed.

(** What a [catch] block that records the message and throws again does to
    a store: it writes [error] at most. *)
Lemma record_and_rethrow (fallback : string) (err : value) (s : store) :
  fallback ≠ "" →
  let r := bind (failure_message err fallback)
             (λ msg, bind (setError msg) (λ _, throw (A := value) err)) s in
  same_results s r.1 ∧ loading r.1 = loading s
  ∧ (is_nullish err = false → r.2 = Throw err ∧ ToBoolean (error r.1) = true).
Proof.
  intros Hfallback. cbn zeta. unfold bind.
  pose proof (failure_message_store err fallback s) as Hfm.
  destruct (failure_message err fallback s) as [s1 [msg|e']] eqn:Hmsg;
    cbn in Hfm; subst s1; cbn;
    (split; [by repeat split|]); (split; [reflexivity|]); intros Herr;
    destruct (failure_message_truthy TypeError_message err fallback s Herr Hfallback)
      as (msg' & Hmsg' & Htruthy);
    rewrite Hmsg in Hmsg'; [|discriminate].
  injection Hmsg' as ->. by split.
Qed.

Lemma startRealTimeStream_try_store (symbol interval timezone : value) (s : store) :
  (startRealTimeStream_try symbol interval timezone s).1 = s.
Proof. apply request_and_reads_store. Qed.

Lemma stopRealTimeStream_try_store (s : store) : (stopRealTimeStream_try s).1 = s.
Proof. apply request_and_reads_store. Qed.

(** X11: the calls outside the load cycle.  [startRealTimeStream] and
    [stopRealTimeStream] never write [loading] or a result; when they
    resolve they have written nothing at all, so an error left by an
    earlier call stays in the store; when their [try] block throws (a value
    that is not [null] or [undefined]) they reject with what was thrown and
    leave a truthy [error].  [checkHealth] never writes to the store,
    failure or not. *)
Theorem stream_calls_write_error_only
    (symbol interval timezone : value) (s : store) (e : value) :
  let start := startRealTimeStream symbol interval timezone s in
  let stop := stopRealTimeStream s in
  (same_results s start.1 ∧ loading start.1 = loading s
   ∧ (∀ v, start.2 = Normal v → start.1 = s)
   ∧ (fails (startRealTimeStream_try symbol interval
               (default_arg timezone (VStr "Asia/Singapore"))) s e →
      is_nullish e = false →
      start.2 = Throw e ∧ ToBoolean (error start.1) = true))
  ∧ (same_results s stop.1 ∧ loading stop.1 = loading s
     ∧ (∀ v, stop.2 = Normal v → stop.1 = s)
     ∧ (fails stopRealTimeStream_try s e →
        is_nullish e = false →
        stop.2 = Throw e ∧ ToBoolean (error stop.1) = true))
  ∧ (checkHealth s).1 = s.
Proof.
  cbn zeta. split; [|split].
  - unfold UseTradingData.startRealTimeStream, try_catch.
    pose proof (startRealTimeStream_try_store symbol interval
                  (default_arg timezone (VStr "Asia/Singapore")) s) as Htry.
    destruct (startRealTimeStream_try symbol interval _ s) as [s' [v|e0]] eqn:Hrun;
      cbn in Htry; subst s'.
    + cbn. repeat split; try done;
        match goal with
        | H : fails _ _ _ |- _ =>
            destruct H as [s'' Hfails]; rewrite Hrun in Hfails; discriminate
        end.
    + destruct (record_and_rethrow "Failed to start stream" e0 s ltac:(discriminate))
        as (Hsame & Hloading & Hthrown).
      unfold UseTradingData.startRealTimeStream_catch.
      split; [exact Hsame|]. split; [exact Hloading|]. split.
      * intros v Hv. destruct (is_nullish e0) eqn:He0.
        -- exfalso. revert Hv. clear. unfold bind.
           destruct (failure_message e0 "Failed to start stream" s) as [s1 [msg|e']];
             cbn; discriminate.
        -- destruct (Hthrown eq_refl) as [Hr _]. rewrite Hr in Hv. discriminate.
      * intros [s'' Hfails] He. rewrite Hrun in Hfails.
        injection Hfails as <- <-. by apply Hthrown.
  - unfold UseTradingData.stopRealTimeStream, try_catch.
    pose proof (stopRealTimeStream_try_store s) as Htry.
    destruct (stopRealTimeStream_try s) as [s' [v|e0]] eqn:Hrun;
      cbn in Htry; subst s'.
    + cbn. repeat split; try done;
        match goal with
        | H : fails _ _ _ |- _ =>
            destruct H as [s'' Hfails]; rewrite Hrun in Hfails; discriminate
        end.
    + destruct (record_and_rethrow "Failed to stop stream" e0 s ltac:(discriminate))
        as (Hsame & Hloading & Hthrown).
      unfold UseTradingData.stopRealTimeStream_catch.
      split; [exact Hsame|]. split; [exact Hloading|]. split.
      * intros v Hv. destruct (is_nullish e0) eqn:He0.
        -- exfalso. revert Hv. clear. unfold bind.
           destruct (failure_message e0 "Failed to stop stream" s) as [s1 [msg|e']];
             cbn; discriminate.
        -- destruct (Hthrown eq_refl) as [Hr _]. rewrite Hr in Hv. discriminate.
      * intros [s'' Hfails] He. rewrite Hrun in Hfails.
        injection Hfails as <- <-. by apply Hthrown.
  - unfold UseTradingData.checkHealth, try_catch, bind, lift, await.
    destruct (axios_get _ _) as [response|err]; cbn; [|reflexivity].
    by destruct (get response "data").
Qed.

End Hook.

(** With the network down, a load and a backtest leave the earlier results
    where they were. *)
Lemma failed_call_keeps_results_network_down :
  same_results Sample.earlier_results
    (fetchData Sample.print_number Sample.type_error_message None Sample.down_get
       (VStr "BTCUSDT") (VStr "5m") VUndefined VUndefined Sample.earlier_results).1
  ∧ same_results Sample.earlier_results
      (runBacktest Sample.print_number Sample.type_error_message None Sample.down_post
         (VStr "BTCUSDT") (VStr "5m") (VObj ∅) Sample.earlier_results).1.
Proof.
  destruct (failed_call_keeps_results Sample.print_number Sample.type_error_message
              None Sample.down_get Sample.down_post
              (VStr "BTCUSDT") (VStr "5m") VUndefined VUndefined (VObj ∅)
              Sample.earlier_results) as (Hfetch & _ & Hrun).
  split.
  - apply Hfetch. reflexivity.
  - apply (Hrun Sample.network_error). reflexivity.
Defined.

(** A load that succeeds after one that failed: three bars are stored and
    the error is gone. *)
Lemma fetchData_success_three_bars :
  fetchData Sample.print_number Sample.type_error_message None Sample.answering_get
    (VStr "BTCUSDT") (VStr "5m") (VNum (num_of_Z 7)) (VStr "UTC") Sample.failed_load
  = (Store (prop Sample.three_bar_body "data")
           (prop Sample.three_bar_body "indicators")
           VNull VNull (VBool false) VNull,
     Normal VUndefined).
Proof.
  apply (fetchData_success Sample.print_number Sample.type_error_message None
           Sample.answering_get (VStr "BTCUSDT") (VStr "5m") (VNum (num_of_Z 7))
           (VStr "UTC") {[ "data" := VObj Sample.three_bar_body ]}
           Sample.three_bar_body Sample.failed_load);
    reflexivity.
Defined.

(** A backtest answered with one trade and no summary. *)
Lemma runBacktest_success_one_trade :
  runBacktest Sample.print_number Sample.type_error_message None Sample.answering_post
    (VStr "BTCUSDT") (VStr "5m") (VObj ∅) Sample.failed_load
  = (Store VNull VNull
           (VArr [VObj {[ "return_pct" := VNum (decimal 2 2) ]}]) VNull
           (VBool false) VNull,
     Normal (VObj Sample.one_trade_results)).
Proof.
  refine (proj1 (runBacktest_success Sample.print_number Sample.type_error_message
              None Sample.answering_post (VStr "BTCUSDT") (VStr "5m") (VObj ∅)
              (VObj (list_to_map
                 ((λ kd, (kd.1, or (prop ∅ kd.1) kd.2)) <$> backtest_defaults)))
              {[ "data" :=
                   VObj (<["success" := VBool true]>
                           {[ "results" := VObj Sample.one_trade_results ]}) ]}
              (<["success" := VBool true]>
                 {[ "results" := VObj Sample.one_trade_results ]})
              Sample.one_trade_results Sample.failed_load _ _ _ _ _));
    first [ apply backtest_body_object | reflexivity ].
Defined.

(** A backtest started without a configuration, on a network that is
    down: what ends in the store is the engine's message, not the
    network's. *)
Lemma runBacktest_without_config_sample :
  runBacktest Sample.print_number Sample.type_error_message None Sample.down_post
    (VStr "BTCUSDT") (VStr "5m") VUndefined initial_store
  = (Store VNull VNull VNull VNull (VBool false)
           (VStr "Cannot read properties of undefined (reading 'days_back')"),
     Throw (VObj {[ "message" :=
                      VStr "Cannot read properties of undefined (reading 'days_back')" ]})).
Proof.
  rewrite (runBacktest_without_config Sample.print_number Sample.type_error_message
             None Sample.down_post (VStr "BTCUSDT") (VStr "5m") VUndefined
             initial_store eq_refl).
  reflexivity.
Defined.

(** A stream started after a failed load: the request succeeds and the
    error of the load is still in the store. *)
Lemma startRealTimeStream_keeps_stale_error :
  (startRealTimeStream Sample.print_number Sample.type_error_message None
     Sample.answering_post (VStr "BTCUSDT") (VStr "5m") VUndefined
     Sample.failed_load).1
  = Sample.failed_load.
Proof.
  destruct (stream_calls_write_error_only Sample.print_number
              Sample.type_error_message None Sample.answering_get
              Sample.answering_post (VStr "BTCUSDT") (VStr "5m") VUndefined
              Sample.failed_load VNull) as ((_ & _ & Hresolved & _) & _).
  eapply Hresolved. reflexivity.
Defined.

End UseTradingDataProps.

(** ** The dashboard: what is on screen after a call *)

Module TradingDashboardProps.
Import Js JsFacts UseTradingData UseTradingDataSpec UseTradingDataProps.
Import TradingDashboard.

Section Dashboard.

Context (Number_toString : spec_float → string).
Context (TypeError_message : value → string → string).
Context (REACT_APP_API_URL : option string).
Context (axios_get : string → value → settled).
Context (axios_post : string → value → value → settled).

Local Abbreviation fetchData_try :=
  (fetchData_try Number_toString TypeError_message REACT_APP_API_URL axios_get).
Local Abbreviation runBacktest_try :=
  (runBacktest_try Number_toString TypeError_message REACT_APP_API_URL axios_post).
Local Abbreviation runBacktest :=
  (runBacktest Number_toString TypeError_message REACT_APP_API_URL axios_post).
Local Abbreviation fetchData :=
  (fetchData Number_toString TypeError_message REACT_APP_API_URL axios_get).
Local Abbreviation loadData :=
  (loadData Number_toString TypeError_message REACT_APP_API_URL axios_get).
Local Abbreviation handleRunBacktest :=
  (handleRunBacktest Number_toString TypeError_message REACT_APP_API_URL axios_post).

(** The handler swallows what [runBacktest] throws and keeps its store. *)
Lemma handleRunBacktest_store (symbol interval daysBack : value) (s : store) :
  handleRunBacktest symbol interval daysBack s
  = ((runBacktest symbol interval (backtest_config daysBack) s).1, Normal VUndefined).
Proof.
  unfold TradingDashboard.handleRunBacktest, try_catch, bind.
  by destruct (runBacktest symbol interval (backtest_config daysBack) s) as [s' [v|e]].
Qed.

(** X12: the handler of the backtest button never rejects, whatever the
    backtest does, and leaves the store as [runBacktest] leaves it; the
    body it has sent is the one of the seven defaults with the dashboard's
    number of days when that is truthy, and with 7 days when it is not. *)
Theorem handleRunBacktest_never_rejects (symbol interval daysBack : value) (s : store) :
  (handleRunBacktest symbol interval daysBack s).2 = Normal VUndefined
  ∧ (handleRunBacktest symbol interval daysBack s).1
    = (runBacktest symbol interval (backtest_config daysBack) s).1
  ∧ backtest_body TypeError_message (backtest_config daysBack)
    = Normal (VObj (<["days_back" := or daysBack (VNum (num_of_Z 7))]>
                      (list_to_map backtest_defaults))).
Proof.
  rewrite handleRunBacktest_store. split; [reflexivity|]. split; [reflexivity|].
  unfold backtest_config. rewrite backtest_body_object. reflexivity.
Qed.

Lemma dashboard_not_loading (symbol interval : string) (s : store) :
  loading s = VBool false →
  match TradingDashboard symbol interval s with
  | LoadingScreen => False
  | _ => True
  end.
Proof.
  intros Hl. unfold TradingDashboard. rewrite Hl. cbn.
  by destruct (ToBoolean (error s)).
Qed.

Lemma dashboard_error (symbol interval : string) (s : store) :
  loading s = VBool false → ToBoolean (error s) = true →
  TradingDashboard symbol interval s = ErrorScreen (error s).
Proof. intros Hl He. unfold TradingDashboard. by rewrite Hl, He. Qed.

(** The message of a caught object that carries no response is its
    [message], or the fallback. *)
Lemma failure_message_no_response (o : gmap string value) (fallback : string)
    (s : store) :
  is_nullish (prop o "response") = true →
  failure_message TypeError_message (VObj o) fallback s
  = (s, Normal (or (prop o "message") (VStr fallback))).
Proof.
  intros Hr. unfold UseTradingData.failure_message, optional_chain3, lift, bind.
  cbn [get]. by rewrite Hr.
Qed.

(** The child of the error paragraph when the message is that of a caught
    object without a response: text for a string message, an object React
    refuses for an object message. *)
Lemma error_child_no_response (e msg : value) (fallback : string) (s : store) :
  failure_message TypeError_message e fallback s = (s, Normal msg) →
  ∀ o, e = VObj o → is_nullish (prop o "response") = true →
       msg = or (prop o "message") (VStr fallback)
       ∧ (∀ t, prop o "message" = VStr t → valid_child msg = true)
       ∧ (∀ m, prop o "message" = VObj m → valid_child msg = false).
Proof.
  intros Hmsg o -> Hr. rewrite (failure_message_no_response o fallback s Hr) in Hmsg.
  injection Hmsg as <-. split; [reflexivity|]. split.
  - intros t ->. unfold or. by destruct (ToBoolean (VStr t)).
  - by intros m ->.
Qed.

(** What a failed load leaves in the [error] cell is the message read from
    what was thrown. *)
Lemma fetchData_failure_error (symbol interval daysBack timezone : value)
    (s : store) (e : value) :
  is_nullish e = false →
  fails (fetchData_try symbol interval
           (default_arg daysBack (VNum (num_of_Z 7)))
           (default_arg timezone (VStr "Asia/Singapore")))
        (started s) e →
  ∃ s' msg,
    failure_message TypeError_message e "Failed to fetch data" s' = (s', Normal msg)
    ∧ ToBoolean msg = true
    ∧ loading (fetchData symbol interval daysBack timezone s).1 = VBool false
    ∧ error (fetchData symbol interval daysBack timezone s).1 = msg.
Proof.
  intros He [s' Hthrow].
  destruct (failure_message_truthy TypeError_message e "Failed to fetch data" s' He)
    as (msg & Hmsg & Htruthy); [discriminate|].
  exists s', msg. split; [exact Hmsg|]. split; [exact Htruthy|].
  unfold UseTradingData.fetchData, try_finally, try_catch, bind.
  cbn [setLoading setError data indicators trades performance loading error].
  fold (started s). rewrite Hthrow.
  unfold fetchData_catch, bind. rewrite Hmsg. cbn. by split.
Qed.

Lemma runBacktest_failure_error (symbol interval config : value)
    (s : store) (e : value) :
  is_nullish e = false →
  fails (runBacktest_try symbol interval config) (started s) e →
  ∃ s' msg,
    failure_message TypeError_message e "Backtest failed" s' = (s', Normal msg)
    ∧ ToBoolean msg = true
    ∧ loading (runBacktest symbol interval config s).1 = VBool false
    ∧ error (runBacktest symbol interval config s).1 = msg.
Proof.
  intros He [s' Hthrow].
  destruct (failure_message_truthy TypeError_message e "Backtest failed" s' He)
    as (msg & Hmsg & Htruthy); [discriminate|].
  exists s', msg. split; [exact Hmsg|]. split; [exact Htruthy|].
  unfold UseTradingData.runBacktest, try_finally, try_catch, bind.
  cbn [setLoading setError data indicators trades performance loading error].
  fold (started s). rewrite Hthrow.
  unfold runBacktest_catch, bind. rewrite Hmsg. cbn. by split.
Qed.

(** X13: the element the dashboard returns once a call has settled.  It is
    never the loading container.  After a load or a backtest whose [try]
    block threw (a value that is not [null] or [undefined]) it is the error
    container, and the child of its paragraph is truthy; when what was
    thrown is an object without a response, that child is its [message], or
    the call's fallback text when the message is falsy: text when the
    message is a string, and an object that React refuses as a child when
    the message is an object.  After a load that was answered with
    [success] it is the three panels: the price chart is mounted, with the
    body's [data] and [indicators] and the store's trades, exactly when
    [data] and [indicators] are both truthy, the oscillator chart exactly
    when [indicators] is truthy, and the metrics exactly when the store
    holds a [performance]; each other panel is a spinner. *)
Theorem dashboard_after_a_call
    (symbol interval : string) (daysBack : value) (s : store) (e : value) :
  match TradingDashboard symbol interval
          (loadData (VStr symbol) (VStr interval) daysBack s).1 with
  | LoadingScreen => False
  | _ => True
  end
  ∧ match TradingDashboard symbol interval
            (handleRunBacktest (VStr symbol) (VStr interval) daysBack s).1 with
    | LoadingScreen => False
    | _ => True
    end
  ∧ (is_nullish e = false →
     fails (fetchData_try (VStr symbol) (VStr interval)
              (default_arg daysBack (VNum (num_of_Z 7))) (VStr "Asia/Singapore"))
           (started s) e →
     ∃ msg,
       TradingDashboard symbol interval
         (loadData (VStr symbol) (VStr interval) daysBack s).1
       = ErrorScreen msg
       ∧ ToBoolean msg = true
       ∧ ∀ o, e = VObj o → is_nullish (prop o "response") = true →
              msg = or (prop o "message") (VStr "Failed to fetch data")
              ∧ (∀ t, prop o "message" = VStr t → valid_child msg = true)
              ∧ (∀ m, prop o "message" = VObj m → valid_child msg = false))
  ∧ (is_nullish e = false →
     fails (runBacktest_try (VStr symbol) (VStr interval) (backtest_config daysBack))
           (started s) e →
     ∃ msg,
       TradingDashboard symbol interval
         (handleRunBacktest (VStr symbol) (VStr interval) daysBack s).1
       = ErrorScreen msg
       ∧ ToBoolean msg = true
       ∧ ∀ o, e = VObj o → is_nullish (prop o "response") = true →
              msg = or (prop o "message") (VStr "Backtest failed")
              ∧ (∀ t, prop o "message" = VStr t → valid_child msg = true)
              ∧ (∀ m, prop o "message" = VObj m → valid_child msg = false))
  ∧ (∀ r d : gmap string value,
       axios_get
         (API_BASE_URL REACT_APP_API_URL +:+ "/api/data/"
            +:+ symbol +:+ "/" +:+ interval)
         (VObj {[ "params" :=
                    VObj (<["days" := default_arg daysBack (VNum (num_of_Z 7))]>
                            {[ "timezone" := VStr "Asia/Singapore" ]}) ]})
       = Fulfilled (VObj r) →
       r !! "data" = Some (VObj d) →
       ToBoolean (prop d "success") = true →
       TradingDashboard symbol interval
         (loadData (VStr symbol) (VStr interval) daysBack s).1
       = Panels
           (if ToBoolean (prop d "data") && ToBoolean (prop d "indicators") then
              Mounted (list_to_map
                [ ("data", prop d "data");
                  ("indicators", prop d "indicators");
                  ("trades", trades s);
                  ("symbol", VStr symbol);
                  ("interval", VStr interval) ])
            else Spinner)
           (if ToBoolean (prop d "indicators") then
              Mounted (list_to_map
                [ ("indicators", prop d "indicators"); ("trades", trades s) ])
            else Spinner)
           (if ToBoolean (performance s) then
              Mounted (list_to_map
                [ ("performance", performance s); ("trades", trades s) ])
            else Spinner)).
Proof.
  split; [|split; [|split; [|split]]].
  - apply dashboard_not_loading.
    unfold TradingDashboard.loadData, UseTradingData.fetchData, bind at 1 2.
    cbn [setLoading setError]. apply try_finally_setLoading.
  - rewrite handleRunBacktest_store. cbn [fst]. apply dashboard_not_loading.
    unfold UseTradingData.runBacktest, bind at 1 2.
    cbn [setLoading setError]. apply try_finally_setLoading.
  - intros He Hfails.
    destruct (fetchData_failure_error (VStr symbol) (VStr interval) daysBack
                VUndefined s e He Hfails) as (s' & msg & Hmsg & Ht & Hl & Herr).
    exists msg. split; [|split; [exact Ht|]].
    + unfold TradingDashboard.loadData. rewrite <- Herr.
      apply dashboard_error; [exact Hl | by rewrite Herr].
    + exact (error_child_no_response e msg _ s' Hmsg).
  - intros He Hfails. rewrite handleRunBacktest_store. cbn [fst].
    destruct (runBacktest_failure_error (VStr symbol) (VStr interval)
                (backtest_config daysBack) s e He Hfails)
      as (s' & msg & Hmsg & Ht & Hl & Herr).
    exists msg. split; [|split; [exact Ht|]].
    + rewrite <- Herr. apply dashboard_error; [exact Hl | by rewrite Herr].
    + exact (error_child_no_response e msg _ s' Hmsg).
  - intros r d Hget Hdata Hsuccess.
    unfold TradingDashboard.loadData, UseTradingData.fetchData, bind at 1 2.
    cbn [setLoading setError data indicators trades performance loading error].
    unfold try_finally, try_catch, UseTradingData.fetchData_try, bind, lift.
    cbn [default_arg ToString]. rewrite Hget. cbn [await ret Js.path Js.get].
    rewrite (prop_lookup r "data" (VObj d) Hdata). cbn [Js.get].
    rewrite Hsuccess. reflexivity.
Qed.

End Dashboard.

(** With the network down the dashboard returns the error container after
    the load and after the backtest, with the text of the network error;
    answered with three bars and a moving average, it mounts the price
    chart and the oscillator chart on them and leaves the metrics on the
    spinner. *)
Lemma dashboard_after_a_call_sample :
  TradingDashboard "ROSEUSDT" "5m"
    (loadData Sample.print_number Sample.type_error_message None
       Sample.down_get (VStr "ROSEUSDT") (VStr "5m") (VNum (num_of_Z 7))
       initial_store).1
  = ErrorScreen (VStr "Network Error")
  ∧ TradingDashboard "ROSEUSDT" "5m"
      (handleRunBacktest Sample.print_number Sample.type_error_message
         None Sample.down_post (VStr "ROSEUSDT") (VStr "5m")
         (VNum (num_of_Z 7)) Sample.earlier_results).1
    = ErrorScreen (VStr "Network Error")
  ∧ valid_child (VStr "Network Error") = true
  ∧ TradingDashboard "ROSEUSDT" "5m"
      (loadData Sample.print_number Sample.type_error_message None
         Sample.answering_get (VStr "ROSEUSDT") (VStr "5m") (VNum (num_of_Z 7))
         Sample.failed_load).1
    = Panels
        (Mounted (list_to_map
           [ ("data", prop Sample.three_bar_body "data");
             ("indicators", prop Sample.three_bar_body "indicators");
             ("trades", VNull);
             ("symbol", VStr "ROSEUSDT");
             ("interval", VStr "5m") ]))
        (Mounted (list_to_map
           [ ("indicators", prop Sample.three_bar_body "indicators");
             ("trades", VNull) ]))
        Spinner.
Proof.
  destruct (dashboard_after_a_call Sample.print_number Sample.type_error_message
              None Sample.down_get Sample.down_post
              "ROSEUSDT" "5m" (VNum (num_of_Z 7))
              initial_store Sample.network_error) as (_ & _ & Hload & _).
  destruct Hload as (msg1 & Hscreen1 & _ & Hchild1);
    [reflexivity | by apply fetchData_try_rejected |].
  destruct (Hchild1 _ eq_refl eq_refl) as (Hmsg1 & Htext1 & _).
  destruct (dashboard_after_a_call Sample.print_number Sample.type_error_message
              None Sample.down_get Sample.down_post
              "ROSEUSDT" "5m" (VNum (num_of_Z 7))
              Sample.earlier_results Sample.network_error) as (_ & _ & _ & Hrun & _).
  destruct Hrun as (msg2 & Hscreen2 & _ & Hchild2);
    [reflexivity | by apply runBacktest_try_rejected |].
  destruct (Hchild2 _ eq_refl eq_refl) as (Hmsg2 & _).
  destruct (dashboard_after_a_call Sample.print_number Sample.type_error_message
              None Sample.answering_get Sample.answering_post
              "ROSEUSDT" "5m" (VNum (num_of_Z 7))
              Sample.failed_load VNull) as (_ & _ & _ & _ & Hok).
  split; [|split; [|split]].
  - rewrite Hscreen1, Hmsg1. reflexivity.
  - rewrite Hscreen2, Hmsg2. reflexivity.
  - specialize (Htext1 "Network Error" eq_refl). rewrite Hmsg1 in Htext1.
    exact Htext1.
  - rewrite (Hok {[ "data" := VObj Sample.three_bar_body ]} Sample.three_bar_body);
      reflexivity.
Defined.

End TradingDashboardProps.

(** ** The oscillator chart: its traces, its markers, its zero line *)

Module MACDChartProps.
Import Js Plot MACDChart.

Section Chart.

Context {timestamp : Type}.
Context (Date_getTime : timestamp → option Z).

Local Abbreviation crossoverPoint := (crossoverPoint Date_getTime).
Local Abbreviation crossoverPoints := (crossoverPoints Date_getTime).
Local Abbreviation chartData := (MACDChart.chartData Date_getTime).

Lemma crossoverPoints_cons (m : macd_series timestamp) (t : trade timestamp)
    (ts : list (trade timestamp)) :
  crossoverPoints m (t :: ts)
  = match crossoverPoint m t with
    | Some p => p :: crossoverPoints m ts
    | None => crossoverPoints m ts
    end.
Proof.
  unfold MACDChart.crossoverPoints, filter_Boolean. rewrite fmap_cons. cbn.
  by destruct (crossoverPoint m t).
Qed.

Lemma crossoverPoint_x (m : macd_series timestamp) (t : trade timestamp) (p : point) :
  crossoverPoint m t = Some p → x p = entry_date t.
Proof.
  unfold MACDChart.crossoverPoint. cbn zeta.
  destruct (0 <=? entryIndex Date_getTime m t)%Z; [|discriminate].
  by intros [= <-].
Qed.

(** X14: the markers follow the trades: there are never more markers than
    trades, their dates are entry dates of trades in the order of the
    trades, and a point is drawn exactly when it is the point of one of the
    trades. *)
Theorem crossover_markers_follow_trades (m : macd_series timestamp)
    (trades : list (trade timestamp)) :
  length (crossoverPoints m trades) ≤ length trades
  ∧ sublist (x <$> crossoverPoints m trades) (entry_date <$> trades)
  ∧ (∀ p, p ∈ crossoverPoints m trades
          ↔ ∃ t, t ∈ trades ∧ crossoverPoint m t = Some p).
Proof.
  split; [|split].
  - induction trades as [|t ts IH]; [done|].
    rewrite crossoverPoints_cons. destruct (crossoverPoint m t); cbn; lia.
  - induction trades as [|t ts IH]; [constructor|].
    rewrite crossoverPoints_cons, (fmap_cons entry_date).
    destruct (crossoverPoint m t) as [p|] eqn:Hp.
    + rewrite fmap_cons, (crossoverPoint_x m t p Hp). by apply sublist_skip.
    + by apply sublist_cons.
  - intros p. unfold MACDChart.crossoverPoints, filter_Boolean.
    rewrite list_elem_of_omap. split.
    + intros (o & Ho & Hid). cbn in Hid. subst o.
      apply list_elem_of_fmap in Ho as (t & Ht & Hin). eauto.
    + intros (t & Hin & Ht). exists (Some p). split; [|done].
      apply list_elem_of_fmap. eauto.
Qed.

(** X15: the chart is empty without indicators or without the oscillator
    series; with the series it has the value line, the signal line and the
    histogram, in that order, followed by one trace of markers exactly when
    some trade has a point: three traces or four. *)
Theorem macd_chart_traces (trades : option (list (trade timestamp))) :
  chartData None trades = []
  ∧ (∀ ind, macd ind = None → chartData (Some ind) trades = [])
  ∧ (∀ ind m, macd ind = Some m →
       let points := crossoverPoints m (default [] trades) in
       chartData (Some ind) trades
       = [ ScatterLines "MACD" (macd_timestamps m) (macd_values m) "#2196F3";
           ScatterLines "Signal" (macd_timestamps m) (macd_signal m) "#FF5722";
           Bars "Histogram" (macd_timestamps m) (macd_histogram m)
                (histogramColors m) ]
         ++ (if nonempty points then
               [ ScatterMarkers "MACD Crossover" (x <$> points) (y <$> points)
                   "circle" 8 (OneColor green) None ]
             else [])
       ∧ length (chartData (Some ind) trades)
         = if nonempty points then 4 else 3).
Proof.
  split; [reflexivity|]. split.
  - intros ind Hm. unfold MACDChart.chartData. by rewrite Hm.
  - intros ind m Hm. cbn zeta. unfold MACDChart.chartData. rewrite Hm.
    destruct trades as [[|t ts]|]; cbn [default from_option id nonempty].
    + by split.
    + fold (crossoverPoints m (t :: ts)).
      destruct (crossoverPoints m (t :: ts)); by split.
    + by split.
Qed.

(** X16: the dashed zero line runs from the first timestamp of the
    oscillator series to its last; with an empty series, and without
    indicators or without the series, both ends are [undefined] and
    nothing is raised. *)
Theorem zero_line_ends (indicators : option (indicators timestamp)) :
  zeroLine indicators
  = match indicators with
    | Some ind =>
        match macd ind with
        | Some m => (head (macd_timestamps m), last (macd_timestamps m))
        | None => (None, None)
        end
    | None => (None, None)
    end.
Proof.
  destruct indicators as [ind|]; [|reflexivity]. unfold zeroLine.
  destruct (macd ind) as [m|]; [|reflexivity].
  f_equal.
  - unfold at_index. cbn. by rewrite head_lookup.
  - unfold at_index. rewrite last_lookup.
    destruct (macd_timestamps m) as [|t l]; [reflexivity|].
    cbn [length Nat.pred].
    destruct (Z.ltb_spec (Z.of_nat (S (length l)) - 1) 0); [lia|].
    f_equal. lia.
Qed.

End Chart.

End MACDChartProps.

(** ** The price chart: how many traces *)

Module CandlestickChartProps.
Import Js Plot CandlestickChart.

Section Chart.

Context (Number_toString : spec_float → string).
Context {timestamp : Type}.

Local Abbreviation chartData := (CandlestickChart.chartData Number_toString).

(** X17: with a dataset and indicators the price view always starts with
    the OHLC trace; the EMA trace is there exactly when the series is
    present and not empty, and the two marker traces exactly when the list
    of trades is present and not empty: between one and four traces, and
    never markers without trades. *)
Theorem price_chart_trace_count (d : market_data timestamp)
    (ind : indicators timestamp) (trades : option (list (trade timestamp))) :
  let ema_shown :=
    match ema_200 ind with Some ema => nonempty (ema_values ema) | None => false end in
  let trades_shown := nonempty (default [] trades) in
  head (chartData (Some d) (Some ind) trades) = Some (candles d)
  ∧ length (chartData (Some d) (Some ind) trades)
    = 1 + (if ema_shown then 1 else 0) + (if trades_shown then 2 else 0)
  ∧ (trades_shown = false →
       ∀ name xs ys symbol size color text,
         ScatterMarkers name xs ys symbol size color text
         ∉ chartData (Some d) (Some ind) trades).
Proof.
  cbn zeta. split; [reflexivity|].
  unfold CandlestickChart.chartData.
  destruct (ema_200 ind) as [ema|]; [destruct (nonempty (ema_values ema))|];
    destruct trades as [[|t ts]|]; cbn; (split; [reflexivity|]);
    intros Hshown; try discriminate;
    intros name xs ys symbol size color text Hin;
    repeat (apply elem_of_cons in Hin as [Hin | Hin]; [discriminate Hin|]);
    by apply elem_of_nil in Hin.
Qed.

End Chart.

End CandlestickChartProps.

(** ** The metric classifier: edge values, the drawdown card *)

Module PerformanceMetricsProps.
Import Js PerformanceMetrics PerformanceMetricsSpec.

Lemma neg_lt_neg (a b : spec_float) : lt (neg a) (neg b) = gt a b.
Proof. unfold gt, lt, neg, SFltb. by rewrite SFcompare_opp. Qed.

(** X18: a metric that is not a number is shown neutral, as is one
    compared with a threshold that is not a number, and zeros of either
    sign are equal; the classification is one of the three classes; and
    exchanging the value and the threshold exchanges positive and
    negative. *)
Theorem getMetricType_edges :
  (∀ threshold, getMetricType S754_nan threshold = "neutral")
  ∧ (∀ value, getMetricType value (Some S754_nan) = "neutral")
  ∧ (∀ s1 s2, getMetricType (S754_zero s1) (Some (S754_zero s2)) = "neutral")
  ∧ (∀ value threshold,
       getMetricType value threshold ∈ ["positive"; "negative"; "neutral"])
  ∧ (∀ value threshold,
       getMetricType value (Some threshold) = "positive"
       ↔ getMetricType threshold (Some value) = "negative").
Proof.
  split; [|split; [|split; [|split]]].
  - intros threshold. unfold getMetricType, gt, lt, SFltb. cbn zeta.
    by destruct (default (num_of_Z 0) threshold).
  - intros value. unfold getMetricType, gt, lt, SFltb. cbn.
    by destruct value.
  - by intros [] [].
  - intros value threshold. unfold getMetricType. cbn zeta.
    destruct (gt value _); [set_solver|]. destruct (lt value _); set_solver.
  - intros value threshold.
    pose proof (gt_excludes_lt value threshold) as Hasym.
    unfold getMetricType, gt, lt in *. cbn [default from_option id].
    destruct (SFltb threshold value), (SFltb value threshold);
      first [ by specialize (Hasym eq_refl) | split; first [done | discriminate] ].
Qed.

(** X19: the drawdown card is negative exactly when [max_drawdown] is above
    10 and neutral exactly when it is neither above nor below 10, that is
    at 10 itself or when it is not a number. *)
Theorem maxDrawdownType_negative_and_neutral (p : performance) :
  (maxDrawdownType p = "negative" ↔ gt (max_drawdown p) (num_of_Z 10) = true)
  ∧ (maxDrawdownType p = "neutral"
     ↔ gt (max_drawdown p) (num_of_Z 10) = false
       ∧ lt (max_drawdown p) (num_of_Z 10) = false)
  ∧ (max_drawdown p = num_of_Z 10 → maxDrawdownType p = "neutral")
  ∧ (max_drawdown p = S754_nan → maxDrawdownType p = "neutral").
Proof.
  unfold maxDrawdownType, getMetricType. cbn [default from_option id].
  rewrite neg_gt_neg, neg_lt_neg.
  split; [|split; [|split]].
  - destruct (lt (max_drawdown p) (num_of_Z 10)) eqn:Hlt.
    + assert (gt (max_drawdown p) (num_of_Z 10) = false) as ->; [|done].
      destruct (gt (max_drawdown p) (num_of_Z 10)) eqn:Hgt; [|done].
      by rewrite (gt_excludes_lt _ _ Hgt) in Hlt.
    + by destruct (gt (max_drawdown p) (num_of_Z 10)).
  - destruct (lt (max_drawdown p) (num_of_Z 10)),
      (gt (max_drawdown p) (num_of_Z 10)); split;
      first [ discriminate | intros [Hgt Hlt]; discriminate | done ].
  - by intros ->.
  - by intros ->.
Qed.

End PerformanceMetricsProps.

(** ** The list of trades: which trades, in which order, with which sign *)

Module TradesListProps.
Import Js Plot TradesList.

Lemma recentTrades_length {A} (trades : list A) :
  length (recentTrades trades) = min 20 (length trades).
Proof.
  unfold recentTrades, slice_last. rewrite length_reverse, length_drop. lia.
Qed.

Lemma recentTrades_lookup {A} (trades : list A) (i : nat) :
  i < min 20 (length trades) →
  recentTrades trades !! i = trades !! (length trades - 1 - i).
Proof.
  intros Hi. unfold recentTrades, slice_last.
  rewrite reverse_lookup by (rewrite length_drop; lia).
  rewrite lookup_drop, length_drop. f_equal. lia.
Qed.

(** X20: the list shows the last twenty trades, the most recent first:
    [recentTrades] has [min 20 n] elements, its [i]-th element is the
    trade at position [n - 1 - i], and with twenty trades or fewer it is
    the whole list reversed. *)
Theorem recentTrades_are_the_last_twenty {A} (trades : list A) :
  length (recentTrades trades) = min 20 (length trades)
  ∧ (∀ i, i < min 20 (length trades) →
       recentTrades trades !! i = trades !! (length trades - 1 - i))
  ∧ (length trades ≤ 20 → recentTrades trades = reverse trades)
  ∧ (∀ older, length trades = 20 → recentTrades (older ++ trades) = reverse trades).
Proof.
  split; [apply recentTrades_length|]. split; [apply recentTrades_lookup|]. split.
  - intros Hn. unfold recentTrades, slice_last.
    by replace (length trades - 20) with 0 by lia.
  - intros older Hn. unfold recentTrades, slice_last.
    rewrite length_app, Hn.
    replace (length older + 20 - 20) with (length older) by lia.
    by rewrite drop_app_length.
Qed.

(** The sign of a product by 100 is the sign of the number. *)
Lemma binary_round_aux_sign (sx : bool) (mx ex : Z) (lx : location) :
  match binary_round_aux prec emax sx mx ex lx with
  | S754_zero s | S754_infinity s | S754_finite s _ _ => s = sx
  | S754_nan => True
  end.
Proof.
  unfold binary_round_aux.
  destruct (shr_fexp prec emax mx ex lx) as [mrs' e'].
  destruct (shr_fexp prec emax _ e' loc_Exact) as [mrs'' e''].
  destruct (shr_m mrs''); [done | | done].
  by destruct (e'' <=? emax - prec)%Z.
Qed.

Lemma hundred_is_finite :
  num_of_Z 100 = S754_finite false 7036874417766400 (-46).
Proof. reflexivity. Qed.

Lemma percent_positive (value : spec_float) :
  gt (num_mul value (num_of_Z 100)) (num_of_Z 0) = true →
  gt value (num_of_Z 0) = true.
Proof.
  rewrite hundred_is_finite.
  destruct value as [s | s | | s m e]; try done; try (destruct s; done).
  destruct s; [|done]. unfold num_mul, SFmul. cbn [xorb].
  pose proof (binary_round_aux_sign true
                (Z.pos (m * 7036874417766400)) (e + -46) loc_Exact) as Hsign.
  destruct (binary_round_aux prec emax true _ _ loc_Exact) as [s | s | | s m' e'];
    try subst s; done.
Qed.

Section List.

Context (Number_toString : spec_float → string).
Context (parseFloat : string → spec_float).
Context {timestamp : Type}.
Context (formatDate : timestamp → string).

Local Abbreviation toFixed := (Js.toFixed Number_toString).
Local Abbreviation formatPercent := (formatPercent Number_toString).
Local Abbreviation tradeItem := (tradeItem Number_toString parseFloat formatDate).
Local Abbreviation TradesList := (TradesList.TradesList Number_toString parseFloat formatDate).

(** X21: the component shows the empty state exactly when the list of
    trades is missing or empty; otherwise it shows [min 20 n] items, the
    [i]-th being the item of the trade at position [n - 1 - i]. *)
Theorem trades_list_items (trades : option (list (trade timestamp))) :
  (TradesList trades = EmptyState ↔ trades = None ∨ trades = Some [])
  ∧ (∀ ts, trades = Some ts → ts ≠ [] →
       ∃ items, TradesList trades = Items items
         ∧ length items = min 20 (length ts)
         ∧ ∀ i, i < min 20 (length ts) →
             items !! i = tradeItem <$> ts !! (length ts - 1 - i)).
Proof.
  split.
  - destruct trades as [[|t ts]|]; cbn; split; intros H; try done; auto.
    destruct H as [H|H]; discriminate.
  - intros ts -> Hts. destruct ts as [|t ts]; [done|].
    eexists. split; [reflexivity|]. split.
    + by rewrite length_fmap, recentTrades_length.
    + intros i Hi. by rewrite list_lookup_fmap, recentTrades_lookup.
Qed.

(** X22: the plus sign goes to gains only: a return that is not above zero
    is printed as [toFixed] prints its percentage, with a minus sign or
    with none, so that an item whose text starts with the added sign is
    always marked as a profit; a return whose percentage is above zero gets
    the sign. *)
Theorem plus_sign_only_on_profit (value : spec_float) :
  (gt value (num_of_Z 0) = false →
     formatPercent value
     = toFixed (num_mul value (num_of_Z 100)) 2 +:+ "%")
  ∧ (gt (num_mul value (num_of_Z 100)) (num_of_Z 0) = true →
       formatPercent value
       = "+" +:+ toFixed (num_mul value (num_of_Z 100)) 2 +:+ "%")
  ∧ (∀ t : trade timestamp,
       isProfit (tradeItem t) = false →
       returnText (tradeItem t)
       = toFixed (num_mul (return_pct t) (num_of_Z 100)) 2 +:+ "%")
  ∧ formatPercent (decimal 2 2) = "+2.00%"
  ∧ formatPercent (neg (decimal 13 3)) = "-1.30%"
  ∧ formatPercent (num_of_Z 0) = "0.00%".
Proof.
  assert (Hloss : ∀ v, gt v (num_of_Z 0) = false →
            formatPercent v = toFixed (num_mul v (num_of_Z 100)) 2 +:+ "%").
  { intros v Hv. unfold TradesList.formatPercent. cbn zeta.
    destruct (gt (num_mul v (num_of_Z 100)) (num_of_Z 0)) eqn:Hpercent; [|done].
    by rewrite (percent_positive v Hpercent) in Hv. }
  split; [apply Hloss|]. split; [|split; [|by repeat split]].
  - intros Hpercent. unfold TradesList.formatPercent. cbn zeta. by rewrite Hpercent.
  - intros t Hprofit. cbn in Hprofit |- *. by apply Hloss.
Qed.

End List.

(** Twenty-five trades: the list shows trades 25 down to 6. *)
Lemma recentTrades_of_twenty_five :
  recentTrades (seq 1 25) = reverse (seq 6 20).
Proof.
  destruct (recentTrades_are_the_last_twenty (seq 6 20)) as (_ & _ & _ & Hlast).
  exact (Hlast (seq 1 5) eq_refl).
Defined.

End TradesListProps.
